(** * fetch-gh-release-asset: a shallow embedding of [src/index.ts] and of its
    near-duplicate [src/unnamed/part_000]

    The action resolves a release of a GitHub repository, selects assets by
    name or by pattern and downloads them.  The two source files share
    [getRepo], [getRelease], the asset filters and [printOutput]; they differ
    in [baseFetchFile], [fetchAssetFile], [fetchSourceFile] and in the
    archive branch of [main].  The shared part is embedded once, the rest in
    the modules [IndexTs] and [Part000].

    Conventions.
    - A JavaScript string is a [string]: a sequence of code units, here
      restricted to the range 0..255.
    - A function that may throw returns a [Completion].
    - Effects go through an explicit [World]; an [async] function is split at
      its first real suspension point (the HTTP exchange) into the part that
      runs at the call and the part that runs when the response arrives.
      A task that awaits a value that is no pending promise goes on before
      any response is delivered, so the second part of a call nobody waits
      for runs after the task that made the call has finished. *)

From Stdlib Require Import ZArith NArith String Ascii List Bool Lia.
From stdpp Require Import base option list strings pretty gmap.

Import ListNotations.
Local Open Scope string_scope.
Local Open Scope list_scope.

(** ** Errors and completions *)

Inductive JSError : Type :=
| Error (message : string)
| TypeError (message : string)
| SyntaxError (message : string).

Inductive Completion (A : Type) : Type :=
| Normal (value : A)
| Throw (error : JSError).

Arguments Normal {A} value.
Arguments Throw {A} error.

(** ** Strings *)

(** [s.split(sep)] for a separator of one code unit.  The result is never
    empty: a string without the separator is returned whole. *)
Fixpoint split (sep : ascii) (s : string) : list string :=
  match s with
  | EmptyString => [EmptyString]
  | String c rest =>
      if Ascii.eqb c sep then EmptyString :: split sep rest
      else match split sep rest with
           | [] => [String c EmptyString]
           | piece :: pieces => String c piece :: pieces
           end
  end.

(** Does the code unit [c] occur in [s]? *)
Fixpoint occurs (c : ascii) (s : string) : bool :=
  match s with
  | EmptyString => false
  | String d rest => Ascii.eqb d c || occurs c rest
  end.

(** ** getRepo *)

Record GetRepoResult : Type := {
  owner : string;
  repo : string
}.

(** [github.context], of which only [context.repo] is read. *)
Record Context : Type := {
  context_repo : GetRepoResult
}.

Definition getRepo (inputRepoString : string) (context : Context)
  : Completion GetRepoResult :=
  if String.eqb inputRepoString "" then
    Normal {| owner := owner (context_repo context);
              repo := repo (context_repo context) |}
  else
    let parts := split "/" inputRepoString in
    match parts !! 0%nat, parts !! 1%nat with
    | Some owner, Some repo => Normal {| owner := owner; repo := repo |}
    | _, _ => Throw (Error "Malformed repo")
    end.


(** ** Numbers

    [Number(version)] and [Math.trunc] are evaluated on IEEE binary64
    values.  A finite double is a dyadic rational; it is kept in lowest
    terms as [numerator / 2^shift], so that an integer has [shift = 0] and
    equal doubles are equal terms.  The sign is kept apart: JavaScript has a
    negative zero. *)

Inductive JSNumber : Type :=
| NaN
| Infinity (negative : bool)
| Finite (negative : bool) (numerator : N) (shift : N).

(** Number of trailing zero bits. *)
Fixpoint ctz (p : positive) : N :=
  match p with
  | xO p' => N.succ (ctz p')
  | _ => 0%N
  end.

(** The double [m * 2^e] ([0 <= m]), in lowest terms. *)
Definition dyadic (negative : bool) (m e : Z) : JSNumber :=
  match m with
  | Zpos p =>
      if (0 <=? e)%Z then Finite negative (Z.to_N (m * 2 ^ e)) 0
      else
        let k := N.min (ctz p) (Z.to_N (- e)) in
        Finite negative (N.shiftr (Npos p) k) (Z.to_N (- e) - k)
  | _ => Finite negative 0 0
  end.

(** Nearest integer to [num / den], ties to even. *)
Definition round_half_even (num den : Z) : Z :=
  let m := (num / den)%Z in
  let r := (num mod den)%Z in
  match (2 * r ?= den)%Z with
  | Lt => m
  | Gt => (m + 1)%Z
  | Eq => if Z.even m then m else (m + 1)%Z
  end.

(** [floor (log2 (p / q))] for positive [p] and [q]. *)
Definition floor_log2_ratio (p q : Z) : Z :=
  let d := (Z.log2 p - Z.log2 q)%Z in
  let below :=
    if (0 <=? d)%Z then (q * 2 ^ d <=? p)%Z else (q <=? p * 2 ^ (- d))%Z in
  if below then d else (d - 1)%Z.

(** The Number value for the non-negative rational [p / q]: round to
    nearest, ties to even, with 53 bits of precision, gradual underflow down
    to [2^-1074] and overflow to infinity from [2^1024 - 2^970]. *)
Definition toDouble (negative : bool) (p q : Z) : JSNumber :=
  if (p =? 0)%Z then Finite negative 0 0
  else
    let e := floor_log2_ratio p q in
    let u := Z.max (e - 52) (-1074) in
    let m :=
      if (0 <=? u)%Z then round_half_even p (q * 2 ^ u)
      else round_half_even (p * 2 ^ (- u)) q in
    if (971 <? u)%Z then Infinity negative
    else if (u =? 971)%Z && (2 ^ 53 <=? m)%Z then Infinity negative
    else dyadic negative m u.

(** *** StringToNumber (ECMA-262, 7.1.4.1.1) *)

(** [StrWhiteSpaceChar]: white space and line terminators. *)
Definition isStrWhiteSpaceChar (c : ascii) : bool :=
  let n := N_of_ascii c in
  ((9 <=? n) && (n <=? 13) || (n =? 32) || (n =? 160))%N.

Fixpoint trimStart (s : string) : string :=
  match s with
  | String c rest => if isStrWhiteSpaceChar c then trimStart rest else s
  | EmptyString => EmptyString
  end.

Fixpoint trimEnd (s : string) : string :=
  match s with
  | String c rest =>
      match trimEnd rest with
      | EmptyString =>
          if isStrWhiteSpaceChar c then EmptyString
          else String c EmptyString
      | rest' => String c rest'
      end
  | EmptyString => EmptyString
  end.

Definition trim (s : string) : string := trimEnd (trimStart s).

(** Value of the digit [c] in base [base] (at most 16), if it is one. *)
Definition digitValue (base : N) (c : ascii) : option N :=
  let n := N_of_ascii c in
  let v :=
    if ((48 <=? n) && (n <=? 57))%N then Some (n - 48)%N
    else if ((97 <=? n) && (n <=? 102))%N then Some (n - 87)%N
    else if ((65 <=? n) && (n <=? 70))%N then Some (n - 55)%N
    else None in
  match v with
  | Some d => if (d <? base)%N then Some d else None
  | None => None
  end.

(** Reads the longest run of digits at the head of [s]: its value, the
    number of digits read and the rest of the string. *)
Fixpoint digits (base : N) (s : string) (acc : N) (count : N)
  : N * N * string :=
  match s with
  | String c rest =>
      match digitValue base c with
      | Some d => digits base rest (acc * base + d)%N (N.succ count)
      | None => (acc, count, s)
      end
  | EmptyString => (acc, count, s)
  end.

(** [NonDecimalIntegerLiteral]: [0x], [0o] or [0b] in either case, then at
    least one digit and nothing after. *)
Definition NonDecimalIntegerLiteral (s : string) : option N :=
  match s with
  | String "0" (String p rest) =>
      let base :=
        if Ascii.eqb p "x" || Ascii.eqb p "X" then Some 16%N
        else if Ascii.eqb p "o" || Ascii.eqb p "O" then Some 8%N
        else if Ascii.eqb p "b" || Ascii.eqb p "B" then Some 2%N
        else None in
      match base with
      | Some b =>
          match digits b rest 0 0 with
          | (v, count, EmptyString) =>
              if (count =? 0)%N then None else Some v
          | _ => None
          end
      | None => None
      end
  | _ => None
  end.

(** [ExponentPart], optional: the empty string stands for no exponent. *)
Definition ExponentPart (s : string) : option Z :=
  match s with
  | EmptyString => Some 0%Z
  | String c rest =>
      if Ascii.eqb c "e" || Ascii.eqb c "E" then
        let '(negative, rest') :=
          match rest with
          | String "+" r => (false, r)
          | String "-" r => (true, r)
          | _ => (false, rest)
          end in
        match digits 10 rest' 0 0 with
        | (v, count, EmptyString) =>
            if (count =? 0)%N then None
            else Some (if negative then (- Z.of_N v)%Z else Z.of_N v)
        | _ => None
        end
      else None
  end.

(** [StrUnsignedDecimalLiteral]: [Infinity], or digits with an optional
    fraction and exponent; at least one digit before or after the point. *)
Definition StrUnsignedDecimalLiteral (negative : bool) (s : string)
  : JSNumber :=
  if String.eqb s "Infinity" then Infinity negative
  else
    let '(int_part, int_count, after_int) := digits 10 s 0 0 in
    let '(frac_part, frac_count, after_frac) :=
      match after_int with
      | String "." r => digits 10 r 0 0
      | _ => (0%N, 0%N, after_int)
      end in
    if ((int_count =? 0) && (frac_count =? 0))%N then NaN
    else
      match ExponentPart after_frac with
      | None => NaN
      | Some x =>
          let mantissa := Z.of_N (int_part * 10 ^ frac_count + frac_part) in
          let k := (x - Z.of_N frac_count)%Z in
          if (0 <=? k)%Z then toDouble negative (mantissa * 10 ^ k) 1
          else toDouble negative mantissa (10 ^ (- k))
      end.

Definition StringToNumber (s : string) : JSNumber :=
  let t := trim s in
  if String.eqb t "" then Finite false 0 0
  else
    match NonDecimalIntegerLiteral t with
    | Some v => toDouble false (Z.of_N v) 1
    | None =>
        match t with
        | String "+" r => StrUnsignedDecimalLiteral false r
        | String "-" r => StrUnsignedDecimalLiteral true r
        | _ => StrUnsignedDecimalLiteral false t
        end
    end.

(** [Number(value)] at a string argument. *)
Definition Number (value : string) : JSNumber := StringToNumber value.

(** [Math.trunc]: the integral part, the sign kept. *)
Definition Math_trunc (x : JSNumber) : JSNumber :=
  match x with
  | Finite negative n k => Finite negative (N.shiftr n k) 0
  | _ => x
  end.

(** An integer as a Number, for reading results. *)
Definition integer (z : Z) : JSNumber :=
  Finite (z <? 0)%Z (Z.abs_N z) 0.


(** ** getRelease *)

(** The REST call made on the octokit client, with its arguments. *)
Inductive ReleaseRequest : Type :=
| repos_getLatestRelease (owner repo : string)
| repos_getReleaseByTag (owner repo tag : string)
| repos_getRelease (owner repo : string) (release_id : JSNumber).

(** Line terminators: the code units [.] does not match. *)
Definition isLineTerminator (c : ascii) : bool :=
  let n := N_of_ascii c in ((n =? 10) || (n =? 13))%N.

Fixpoint hasLineTerminator (s : string) : bool :=
  match s with
  | EmptyString => false
  | String c rest => isLineTerminator c || hasLineTerminator rest
  end.

Fixpoint stripPrefix (prefix s : string) : option string :=
  match prefix, s with
  | EmptyString, _ => Some s
  | String p prefix', String c s' =>
      if Ascii.eqb p c then stripPrefix prefix' s' else None
  | String _ _, EmptyString => None
  end.

(** [version.match(re)] for the literal [re] of the source: the anchor [^],
    the text [tags/], one capture group holding a greedy star of [.], the
    anchor [$].  The literal has no flag: the anchors are the two ends of
    the input and [.] matches anything but a line terminator, so the match
    exists exactly when the input starts with [tags/] and has no line
    terminator after it.  The result is the match array [[whole; group 1]],
    or [None] for [null]. *)
Definition match_tags (version : string) : option (list string) :=
  match stripPrefix "tags/" version with
  | Some rest =>
      if hasLineTerminator rest then None else Some [version; rest]
  | None => None
  end.

(** Truthiness of the element [i] of a match array: a missing element is
    [undefined], a string is truthy unless it is empty. *)
Definition truthy_at (matched : list string) (i : nat) : bool :=
  match matched !! i with
  | Some s => negb (String.eqb s "")
  | None => false
  end.

Definition getRelease (owner repo version : string) : ReleaseRequest :=
  let tagsMatch := match_tags version in
  if String.eqb version "latest" then repos_getLatestRelease owner repo
  else
    match tagsMatch with
    | Some matched =>
        if truthy_at matched 1 then
          repos_getReleaseByTag owner repo (default "" (matched !! 1%nat))
        else repos_getRelease owner repo (Math_trunc (Number version))
    | None => repos_getRelease owner repo (Math_trunc (Number version))
    end.

(** ** Values, requests and release records *)

(** The values held by a [RequestParameters] object in this program. *)
Inductive JSValue : Type :=
| Undefined
| JSString (s : string)
| JSInteger (z : Z).

(** [ToString], as a template literal applies it. *)
Definition ToString (v : JSValue) : string :=
  match v with
  | Undefined => "undefined"
  | JSString s => s
  | JSInteger z => pretty z
  end.

(** [o[key]]: a missing property reads as [undefined]. *)
Definition prop (o : gmap string JSValue) (key : string) : JSValue :=
  default Undefined (o !! key).

(** [EndpointOptions], as far as [baseFetchFile] reads it. *)
Record EndpointOptions : Type := {
  eo_method : string;
  eo_url : string;
  eo_headers : option (gmap string string);
  eo_body : option string
}.

(** The arguments of one [fetch(url, { body, headers, method })]. *)
Record Request : Type := {
  req_url : string;
  req_method : string;
  req_headers : gmap string string;
  req_body : option string
}.

Record Response : Type := {
  status : N;
  payload : list Byte.byte
}.

(** [response.ok]: the status is in the range 200-299. *)
Definition ok (response : Response) : bool :=
  ((200 <=? status response) && (status response <=? 299))%N.

(** What the promise returned by [fetch] settles to. *)
Inductive FetchResult : Type :=
| Responded (response : Response)
| Failed (error : JSError).

Record Asset : Type := {
  asset_id : Z;
  asset_name : string
}.

(** [release.data]; [name], [body] and [zipball_url] may be [null]. *)
Record Release : Type := {
  tag_name : string;
  release_name : option string;
  release_body : option string;
  zipball_url : option string;
  assets : list Asset
}.

(** The client built by [github.getOctokit(token, { baseUrl })]. *)
Record Octokit : Type := {
  auth : string;
  baseUrl : option string
}.

(** A compiled pattern, seen through its matcher: [m input i] tells whether
    the pattern matches [input] starting at index [i]. *)
Definition Matcher : Type := string -> nat -> bool.

(** The collaborators of the program: the ambient context, the REST client,
    the network, the pattern compiler of the JavaScript engine and the
    inputs of the step.  [network n request] is the outcome of the exchange
    number [n] (counted from 0 in the order the exchanges are started);
    [RegExp_new pattern] throws for a pattern that does not compile;
    [inputs name] is the value given to an input, empty when it is not
    supplied. *)
Record Env : Type := {
  context : Context;
  getOctokit : string -> option string -> Completion Octokit;
  rest : Octokit -> ReleaseRequest -> Completion Release;
  endpoint : Octokit -> string -> gmap string JSValue -> EndpointOptions;
  network : nat -> Request -> FetchResult;
  RegExp_new : string -> Completion Matcher;
  inputs : string -> string
}.

(** ** The world and the effects *)

(** The value given to [core.setOutput]. *)
Inductive OutputValue : Type :=
| OutString (s : string)
| OutNull
| OutError (error : JSError).

Definition nullable (o : option string) : OutputValue :=
  match o with
  | Some s => OutString s
  | None => OutNull
  end.

Inductive Event : Type :=
| Warning (message : string)
| Fetch (exchange : nat) (request : Request)
| ResponseText (exchange : nat)
| ResponseBlob (exchange : nat)
| Mkdir (path : string) (recursive : bool)
| WriteFile (path : string) (data : list Byte.byte)
| SetOutput (name : string) (value : OutputValue)
| Sleep (ms : N).

(** A call of [baseFetchFile] suspended at [await fetch(...)]: what its
    continuation needs once the exchange is over. *)
Record Task : Type := {
  task_parameters : gmap string JSValue;
  task_exchange : nat;
  task_request : Request
}.

(** - [events]: everything observable, oldest first;
    - [files], [directories]: the file system;
    - [exchanges]: how many HTTP exchanges were started;
    - [inflight]: suspended calls whose promise nobody holds;
    - [unhandled]: rejections of such promises. *)
Record World : Type := {
  events : list Event;
  files : gmap string (list Byte.byte);
  directories : gset string;
  exchanges : nat;
  inflight : list Task;
  unhandled : list JSError
}.

Definition initial : World :=
  {| events := []; files := ∅; directories := ∅; exchanges := 0;
     inflight := []; unhandled := [] |}.

(** Code that runs without giving the control back to the event loop. *)
Definition M (A : Type) : Type := World -> World * Completion A.

Definition ret {A} (x : A) : M A := fun w => (w, Normal x).

Definition throw {A} (e : JSError) : M A := fun w => (w, Throw e).

Definition bind {A B} (m : M A) (k : A -> M B) : M B :=
  fun w =>
    match m w with
    | (w', Normal x) => k x w'
    | (w', Throw e) => (w', Throw e)
    end.

Definition lift {A} (c : Completion A) : M A := fun w => (w, c).

(** [try { body } catch (error) { handler }]. *)
Definition try_catch {A} (body : M A) (handler : JSError -> M A) : M A :=
  fun w =>
    match body w with
    | (w', Normal x) => (w', Normal x)
    | (w', Throw e) => handler e w'
    end.

Declare Scope js_scope.
Delimit Scope js_scope with js.
Notation "x <- c1 ;; c2" := (bind c1 (fun x => c2))
  (at level 100, c1 at next level, right associativity) : js_scope.
Notation "c1 ;; c2" := (bind c1 (fun _ => c2))
  (at level 100, right associativity) : js_scope.
Local Open Scope js_scope.

Definition emit (e : Event) : M unit :=
  fun w =>
    ({| events := events w ++ [e]; files := files w;
        directories := directories w; exchanges := exchanges w;
        inflight := inflight w; unhandled := unhandled w |}, Normal tt).

Definition core_warning (message : string) : M unit :=
  emit (Warning message).

Definition core_setOutput (name : string) (value : OutputValue) : M unit :=
  emit (SetOutput name value).

(** *** Inputs *)

(** [core.getInput(name, { required })]: the requirement bears on the
    value as given, the value returned is trimmed. *)
Definition core_getInput (env : Env) (name : string) (required : bool)
  : Completion string :=
  let val := inputs env name in
  if required && String.eqb val "" then
    Throw (Error ("Input required and not supplied: " +:+ name))
  else Normal (trim val).

(** [core.getBooleanInput(name, { required })]; the message of the error
    is cut short. *)
Definition core_getBooleanInput (env : Env) (name : string) (required : bool)
  : Completion bool :=
  match core_getInput env name required with
  | Throw e => Throw e
  | Normal val =>
      if existsb (String.eqb val) ["true"; "True"; "TRUE"] then Normal true
      else if existsb (String.eqb val) ["false"; "False"; "FALSE"]
      then Normal false
      else Throw (TypeError
        ("Input does not meet YAML 1.2 Core Schema specification: "
           +:+ name))
  end.

(** *** File system *)

Definition isSlash (c : ascii) : bool := Ascii.eqb c "/".

Fixpoint dropWhile {A} (p : A -> bool) (l : list A) : list A :=
  match l with
  | x :: l' => if p x then dropWhile p l' else l
  | [] => []
  end.

(** [path.dirname] (POSIX flavour).  The source scans the path from its
    end down to index 1: it skips the trailing slashes, then the last
    component, and cuts at the slash it meets next. *)
Definition dirname (path : string) : string :=
  match path with
  | EmptyString => "."
  | String first rest =>
      let hasRoot := isSlash first in
      let backwards := rev (list_ascii_of_string rest) in
      let before_name :=
        dropWhile (fun c => negb (isSlash c)) (dropWhile isSlash backwards) in
      match before_name with
      | [] => if hasRoot then "/" else "."
      | _ :: kept =>
          if hasRoot && (List.length before_name =? 1)%nat then "//"
          else String first (string_of_list_ascii (rev kept))
      end
  end.

(** A directory and the directories above it. *)
Fixpoint lineage (fuel : nat) (dir : string) : list string :=
  match fuel with
  | O => [dir]
  | S fuel' =>
      let parent := dirname dir in
      if String.eqb parent dir then [dir] else dir :: lineage fuel' parent
  end.

(** [mkdir(path, { recursive: true })]: the directory and the missing
    directories above it exist afterwards.  File-system calls are taken to
    succeed. *)
Definition mkdir_recursive (path : string) : M unit :=
  fun w =>
    ({| events := events w ++ [Mkdir path true]; files := files w;
        directories :=
          directories w ∪ list_to_set (lineage (String.length path) path);
        exchanges := exchanges w; inflight := inflight w;
        unhandled := unhandled w |}, Normal tt).

(** [writeFile(path, data)]: creates the file or replaces its content. *)
Definition writeFile (path : string) (data : list Byte.byte) : M unit :=
  fun w =>
    ({| events := events w ++ [WriteFile path data];
        files := <[path := data]> (files w);
        directories := directories w; exchanges := exchanges w;
        inflight := inflight w; unhandled := unhandled w |}, Normal tt).

(** *** HTTP and the event loop *)

(** [fetch(url, init)]: starts an exchange and hands back its number; the
    response is only seen by the continuation of the caller. *)
Definition fetch (request : Request) : M nat :=
  fun w =>
    ({| events := events w ++ [Fetch (exchanges w) request];
        files := files w; directories := directories w;
        exchanges := S (exchanges w); inflight := inflight w;
        unhandled := unhandled w |}, Normal (exchanges w)).

(** [response.text()]. *)
Definition response_text (exchange : nat) (response : Response) : M string :=
  emit (ResponseText exchange) ;;
  ret (string_of_list_byte (payload response)).

(** [(await response.blob()).arrayBuffer()]. *)
Definition response_arrayBuffer (exchange : nat) (response : Response)
  : M (list Byte.byte) :=
  emit (ResponseBlob exchange) ;;
  ret (payload response).

(** The comma operator applied to a pending promise: the promise is
    dropped, the call it stands for stays suspended until its exchange is
    over. *)
Definition detach (t : Task) : M unit :=
  fun w =>
    ({| events := events w; files := files w;
        directories := directories w; exchanges := exchanges w;
        inflight := inflight w ++ [t]; unhandled := unhandled w |},
     Normal tt).

Definition reject_unhandled (e : JSError) (w : World) : World :=
  {| events := events w; files := files w; directories := directories w;
     exchanges := exchanges w; inflight := inflight w;
     unhandled := unhandled w ++ [e] |}.

Definition clear_inflight (w : World) : World :=
  {| events := events w; files := files w; directories := directories w;
     exchanges := exchanges w; inflight := [];
     unhandled := unhandled w |}.

(** The event loop after the main task has run: every suspended call is
    resumed with the outcome of its exchange, each to its end, in the order
    the exchanges were started; a rejection nobody handles is recorded.
    What the process does on such a rejection depends on the version of
    Node (a warning, or the end of the process with code 1) and is left
    out. *)
Definition drain (resume : Task -> M unit) (w : World) : World :=
  fold_left
    (fun w t =>
       match resume t w with
       | (w', Normal _) => w'
       | (w', Throw e) => reject_unhandled e w'
       end)
    (inflight w) (clear_inflight w).

(** The world [w] with the events [es] added. *)
Definition after_events (es : list Event) (w : World) : World :=
  {| events := events w ++ es; files := files w;
     directories := directories w; exchanges := exchanges w;
     inflight := inflight w; unhandled := unhandled w |}.

(** The world once a call of [baseFetchFile] has started its exchange and
    its promise has been dropped; [logged] is what the call logged first. *)
Definition launched (logged : list Event) (parameters : gmap string JSValue)
    (request : Request) (w : World) : World :=
  {| events := events w ++ logged ++ [Fetch (exchanges w) request];
     files := files w;
     directories := directories w;
     exchanges := S (exchanges w);
     inflight :=
       inflight w
       ++ [{| task_parameters := parameters; task_exchange := exchanges w;
              task_request := request |}];
     unhandled := unhandled w |}.

(** *** Retrying ([async-retry]) *)

(** The options object of [retry]; also the object the callbacks of this
    program hand back. *)
Record RetryOptions : Type := {
  retries : nat;
  minTimeout : N
}.

(** [retry] reads its options from its second argument; without one it
    retries 10 times, starting from a delay of 1000 ms. *)
Definition defaultRetryOptions : RetryOptions :=
  {| retries := 10; minTimeout := 1000 |}.

(** What a callback gives back to [retry]: a plain object, or the promise
    of a suspended call. *)
Inductive Returned : Type :=
| Plain (object : RetryOptions)
| Promise (t : Task).

Section Retry.

(** How a suspended call goes on when its exchange is over. *)
Variable resume : Task -> M unit.

(** One run of the callback, then [Promise.resolve(val)]: a promise is
    waited for and its rejection is an error of the attempt, a plain value
    resolves at once.  An error is retried while retries are left, after a
    delay of at least [minTimeout * 2^(attempt - 1)]; the last error
    rejects. *)
Fixpoint retry_attempts (fn : nat -> M Returned) (delay : N)
    (left : nat) (attempt : nat) : M (option RetryOptions) :=
  fun w =>
    let '(w1, outcome) :=
      match fn attempt w with
      | (w', Throw e) => (w', Throw e)
      | (w', Normal (Plain object)) => (w', Normal (Some object))
      | (w', Normal (Promise t)) =>
          match resume t w' with
          | (w'', Normal _) => (w'', Normal None)
          | (w'', Throw e) => (w'', Throw e)
          end
      end in
    match outcome, left with
    | Normal v, _ => (w1, Normal v)
    | Throw e, O => (w1, Throw e)
    | Throw e, S left' =>
        match emit (Sleep delay) w1 with
        | (w2, _) => retry_attempts fn (2 * delay) left' (S attempt) w2
        end
    end.

(** [retry(fn, opts)]. *)
Definition retry (fn : nat -> M Returned) (opts : option RetryOptions)
  : M (option RetryOptions) :=
  let options := default defaultRetryOptions opts in
  retry_attempts fn (minTimeout options) (retries options) 1.

End Retry.

(** The object the callbacks of both fetchers hand back to [retry]. *)
Definition handed_back : RetryOptions :=
  {| retries := 5; minTimeout := 1000 |}.

(** *** Asset filters and outputs *)

(** [RegExp.prototype.test] for a pattern without flags: the matcher is
    tried at index 0, 1, ... up to the length of the input, and the first
    index where it matches is enough. *)
Definition RegExp_test (m : Matcher) (input : string) : bool :=
  existsb (m input) (seq 0 (S (String.length input))).

Definition filterByFileName (file : string) (asset : Asset)
  : Completion bool :=
  Normal (String.eqb file (asset_name asset)).

Definition filterByRegex (env : Env) (file : string) (asset : Asset)
  : Completion bool :=
  match RegExp_new env file with
  | Normal m => Normal (RegExp_test m (asset_name asset))
  | Throw e => Throw e
  end.

(** [array.filter(predicate)], the predicate called on each element in
    order; the first throw ends the call. *)
Fixpoint Array_filter {A} (predicate : A -> Completion bool) (l : list A)
  : Completion (list A) :=
  match l with
  | [] => Normal []
  | x :: l' =>
      match predicate x with
      | Throw e => Throw e
      | Normal keep =>
          match Array_filter predicate l' with
          | Throw e => Throw e
          | Normal kept => Normal (if keep then x :: kept else kept)
          end
      end
  end.

(** [for (const x of l) { await body(x) }]. *)
Fixpoint for_of {A} (l : list A) (body : A -> M unit) : M unit :=
  match l with
  | [] => ret tt
  | x :: l' => body x ;; for_of l' body
  end.

Definition printOutput (release : Release) : M unit :=
  core_setOutput "version" (OutString (tag_name release)) ;;
  core_setOutput "name" (nullable (release_name release)) ;;
  core_setOutput "body" (nullable (release_body release)).

Definition createEndpointOptions (env : Env) (octokit : Octokit)
    (endpointUrl : string) (parameters : gmap string JSValue)
  : EndpointOptions :=
  endpoint env octokit endpointUrl parameters.

(** [x || y] on strings: the empty string is falsy. *)
Definition or_else (x y : string) : string :=
  if String.eqb x "" then y else x.

(** The result of a run: what the promise of [main] settled to, and the
    world once the event loop has nothing left. *)
Definition run {A} (resume : Task -> M unit) (main : M A)
  : World * Completion A :=
  match main initial with
  | (w, c) => (drain resume w, c)
  end.

(** ** [src/index.ts] *)

Module IndexTs.

(** Names, for the statements about the program, of what it builds: the
    request a call of [baseFetchFile] sends and what the call logs first. *)
Definition request (parameters : gmap string JSValue)
    (endpointOptions : EndpointOptions) : Request :=
  {| req_url := eo_url endpointOptions;
     req_method := eo_method endpointOptions;
     req_headers :=
       <["authorization" := "token " +:+ ToString (prop parameters "token")]>
         (<["accept" := "application/octet-stream"]>
            (default ∅ (eo_headers endpointOptions)));
     req_body := eo_body endpointOptions |}.

Definition logged (endpointOptions : EndpointOptions) : list Event :=
  [Warning ("Request " +:+ eo_url endpointOptions +:+ " "
            +:+ eo_method endpointOptions)].

(** The arguments [main] and the two fetchers give to [baseFetchFile]. *)
Definition asset_parameters (usesRegex : bool)
    (target owner repo token : string) (asset : Asset)
  : gmap string JSValue :=
  list_to_map
    [("id", JSInteger (asset_id asset));
     ("outputPath",
      JSString (if usesRegex then target +:+ asset_name asset else target));
     ("owner", JSString owner); ("repo", JSString repo);
     ("token", JSString token)].

Definition asset_endpoint (env : Env) (octokit : Octokit)
    (parameters : gmap string JSValue) : EndpointOptions :=
  endpoint env octokit "GET /repos/:owner/:repo/releases/assets/:asset_id"
    parameters.

Definition source_parameters (target owner repo token : string)
  : gmap string JSValue :=
  list_to_map
    [("outputPath", JSString target); ("owner", JSString owner);
     ("repo", JSString repo); ("token", JSString token)].

Definition source_endpoint (url : string) : EndpointOptions :=
  {| eo_method := "GET"; eo_url := url; eo_headers := None;
     eo_body := None |}.

(** The world once [main] has called [fetchAssetFile] for [asset]. *)
Definition launch_asset (env : Env) (octokit : Octokit) (usesRegex : bool)
    (target owner repo token : string) (asset : Asset) (w : World) : World :=
  let parameters := asset_parameters usesRegex target owner repo token asset in
  launched (logged (asset_endpoint env octokit parameters)) parameters
    (request parameters (asset_endpoint env octokit parameters)) w.

Section Program.

Variable env : Env.

(** [baseFetchFile], from the call to [await fetch(...)]. *)
Definition baseFetchFile (parameters : gmap string JSValue)
    (endpointOptions : EndpointOptions) : M Task :=
  let body := eo_body endpointOptions in
  let method := eo_method endpointOptions in
  let url := eo_url endpointOptions in
  let headers : gmap string string :=
    <["authorization" := "token " +:+ ToString (prop parameters "token")]>
      (<["accept" := "application/octet-stream"]>
         (default ∅ (eo_headers endpointOptions))) in
  core_warning ("Request " +:+ url +:+ " " +:+ method) ;;
  let request :=
    {| req_url := url; req_method := method; req_headers := headers;
       req_body := body |} in
  exchange <- fetch request ;;
  ret {| task_parameters := parameters; task_exchange := exchange;
         task_request := request |}.

(** [baseFetchFile], from the settled exchange to the end. *)
Definition baseFetchFile_resume (t : Task) : M unit :=
  match network env (task_exchange t) (task_request t) with
  | Failed e => throw e
  | Responded response =>
      core_warning "Response: [object Response]" ;;
      if negb (ok response) then
        text <- response_text (task_exchange t) response ;;
        core_warning text ;;
        throw (Error "Invalid response")
      else
        arrayBuffer <- response_arrayBuffer (task_exchange t) response ;;
        match prop (task_parameters t) "outputPath" with
        | JSString outputPath =>
            mkdir_recursive (dirname outputPath) ;;
            writeFile outputPath arrayBuffer
        | _ => throw (TypeError "The path argument must be of type string")
        end
  end.

(** One call of [baseFetchFile], from its start to the settlement of its
    promise. *)
Definition attempt (parameters : gmap string JSValue)
    (endpointOptions : EndpointOptions) : M unit :=
  t <- baseFetchFile parameters endpointOptions ;;
  baseFetchFile_resume t.

(** The callback ends in [return baseFetchFile(...), { retries: 5,
    minTimeout: 1000 }]: a comma expression.  The call is made, its promise
    is dropped, the object is the value returned; [retry] gets no second
    argument. *)
Definition fetchAssetFile (octokit : Octokit)
    (parameters : gmap string JSValue) : M (option RetryOptions) :=
  retry baseFetchFile_resume
    (fun _ =>
       let endpoint :=
         createEndpointOptions env octokit
           "GET /repos/:owner/:repo/releases/assets/:asset_id" parameters in
       t <- baseFetchFile parameters endpoint ;;
       detach t ;;
       ret (Plain {| retries := 5; minTimeout := 1000 |}))
    None.

Definition fetchSourceFile (parameters : gmap string JSValue) (url : string)
  : M (option RetryOptions) :=
  retry baseFetchFile_resume
    (fun _ =>
       t <- baseFetchFile parameters
              {| eo_method := "GET"; eo_url := url; eo_headers := None;
                 eo_body := None |} ;;
       detach t ;;
       ret (Plain {| retries := 5; minTimeout := 1000 |}))
    None.

Definition main : M unit :=
  inputRepoString <- lift (core_getInput env "repo" false) ;;
  resolved <- lift (getRepo inputRepoString (context env)) ;;
  let '(Build_GetRepoResult owner repo) := resolved in
  token <- lift (core_getInput env "token" false) ;;
  inputVersion <- lift (core_getInput env "version" false) ;;
  let version := or_else inputVersion "latest" in
  inputTarget <- lift (core_getInput env "target" false) ;;
  file <- lift (core_getInput env "file" true) ;;
  usesRegex <- lift (core_getBooleanInput env "regex" false) ;;
  onlySourceZip <- lift (core_getBooleanInput env "only-source-zip" false) ;;
  let target := if String.eqb inputTarget "" then file else inputTarget in
  inputBaseUrl <- lift (core_getInput env "octokitBaseUrl" false) ;;
  let baseUrl :=
    if String.eqb inputBaseUrl "" then None else Some inputBaseUrl in
  octokit <- lift (getOctokit env token baseUrl) ;;
  release <- lift (rest env octokit (getRelease owner repo version)) ;;
  core_warning
    ("Value onlySourceZip " +:+ (if onlySourceZip then "true" else "false")) ;;
  if onlySourceZip then
    try_catch
      (core_warning
         ("Download zipball_url " +:+ default "null" (zipball_url release)) ;;
       fetchSourceFile
         (list_to_map
            [("outputPath", JSString target); ("owner", JSString owner);
             ("repo", JSString repo); ("token", JSString token)])
         (or_else (default "" (zipball_url release)) "") ;;
       printOutput release)
      (fun error =>
         core_setOutput "Error on retrieve source zip" (OutError error))
  else
    let assetFilterFn :=
      if usesRegex then filterByRegex env file else filterByFileName file in
    assets <- lift (Array_filter assetFilterFn (assets release)) ;;
    if (List.length assets =? 0)%nat then
      throw (Error "Could not find asset id")
    else
      for_of assets
        (fun asset =>
           fetchAssetFile octokit
             (list_to_map
                [("id", JSInteger (asset_id asset));
                 ("outputPath",
                  JSString (if usesRegex then target +:+ asset_name asset
                            else target));
                 ("owner", JSString owner); ("repo", JSString repo);
                 ("token", JSString token)]) ;;
           ret tt) ;;
      printOutput release.

End Program.
End IndexTs.

(** ** [src/unnamed/part_000] *)

Module Part000.

(** Names, for the statements about the program, of what it builds: the
    request a call of [baseFetchFile] sends. *)
Definition request (parameters : gmap string JSValue)
    (endpointOptions : EndpointOptions) : Request :=
  {| req_url := eo_url endpointOptions;
     req_method := eo_method endpointOptions;
     req_headers :=
       <["authorization" := "token " +:+ ToString (prop parameters "token")]>
         (default ∅ (eo_headers endpointOptions));
     req_body := eo_body endpointOptions |}.

(** The arguments [main] and the two fetchers give to [baseFetchFile]. *)
Definition asset_parameters (usesRegex : bool)
    (target owner repo token : string) (asset : Asset)
  : gmap string JSValue :=
  list_to_map
    [("id", JSInteger (asset_id asset));
     ("outputPath",
      JSString (if usesRegex then target +:+ asset_name asset else target));
     ("owner", JSString owner); ("repo", JSString repo);
     ("token", JSString token)].

Definition asset_endpoint (env : Env) (octokit : Octokit)
    (parameters : gmap string JSValue) : EndpointOptions :=
  let found :=
    endpoint env octokit "GET /repos/:owner/:repo/releases/assets/:asset_id"
      (list_to_map
         [("owner", prop parameters "owner");
          ("repo", prop parameters "repo");
          ("asset_id", prop parameters "id")]) in
  {| eo_method := eo_method found; eo_url := eo_url found;
     eo_headers :=
       Some (<["accept" := "application/octet-stream"]>
               (default ∅ (eo_headers found)));
     eo_body := eo_body found |}.

Definition source_parameters (token outputPath : string)
  : gmap string JSValue :=
  list_to_map
    [("token", JSString token); ("outputPath", JSString outputPath)].

Definition source_endpoint (url : string) : EndpointOptions :=
  {| eo_url := url; eo_method := "GET";
     eo_headers := Some {[ "accept" := "application/vnd.github.v3+json" ]};
     eo_body := None |}.

(** The world once [main] has called [fetchAssetFile] for [asset]. *)
Definition launch_asset (env : Env) (octokit : Octokit) (usesRegex : bool)
    (target owner repo token : string) (asset : Asset) (w : World) : World :=
  let parameters := asset_parameters usesRegex target owner repo token asset in
  launched [] parameters
    (request parameters (asset_endpoint env octokit parameters)) w.

Section Program.

Variable env : Env.

(** [baseFetchFile], from the call to [await fetch(...)]. *)
Definition baseFetchFile (parameters : gmap string JSValue)
    (endpointOptions : EndpointOptions) : M Task :=
  let body := eo_body endpointOptions in
  let url := eo_url endpointOptions in
  let method := eo_method endpointOptions in
  let headers := eo_headers endpointOptions in
  let token := prop parameters "token" in
  let fetchHeaders : gmap string string :=
    <["authorization" := "token " +:+ ToString token]> (default ∅ headers) in
  let request :=
    {| req_url := url; req_method := method; req_headers := fetchHeaders;
       req_body := body |} in
  exchange <- fetch request ;;
  ret {| task_parameters := parameters; task_exchange := exchange;
         task_request := request |}.

(** [baseFetchFile], from the settled exchange to the end. *)
Definition baseFetchFile_resume (t : Task) : M unit :=
  match network env (task_exchange t) (task_request t) with
  | Failed e => throw e
  | Responded response =>
      if negb (ok response) then
        text <- response_text (task_exchange t) response ;;
        core_warning text ;;
        throw (Error "Invalid response")
      else
        arrayBuffer <- response_arrayBuffer (task_exchange t) response ;;
        match prop (task_parameters t) "outputPath" with
        | JSString outputPath =>
            mkdir_recursive (dirname outputPath) ;;
            writeFile outputPath arrayBuffer
        | _ => throw (TypeError "The path argument must be of type string")
        end
  end.

(** One call of [baseFetchFile], from its start to the settlement of its
    promise. *)
Definition attempt (parameters : gmap string JSValue)
    (endpointOptions : EndpointOptions) : M unit :=
  t <- baseFetchFile parameters endpointOptions ;;
  baseFetchFile_resume t.

(** The callback ends in the same comma expression as in [src/index.ts]. *)
Definition fetchAssetFile (octokit : Octokit)
    (parameters : gmap string JSValue) : M (option RetryOptions) :=
  retry baseFetchFile_resume
    (fun _ =>
       let owner := prop parameters "owner" in
       let repo := prop parameters "repo" in
       let id := prop parameters "id" in
       let endpoint :=
         createEndpointOptions env octokit
           "GET /repos/:owner/:repo/releases/assets/:asset_id"
           (list_to_map
              [("owner", owner); ("repo", repo); ("asset_id", id)]) in
       let endpoint :=
         {| eo_method := eo_method endpoint; eo_url := eo_url endpoint;
            eo_headers :=
              Some (<["accept" := "application/octet-stream"]>
                      (default ∅ (eo_headers endpoint)));
            eo_body := eo_body endpoint |} in
       t <- baseFetchFile parameters endpoint ;;
       detach t ;;
       ret (Plain {| retries := 5; minTimeout := 1000 |}))
    None.

Definition fetchSourceFile (url outputPath token : string)
  : M (option RetryOptions) :=
  retry baseFetchFile_resume
    (fun _ =>
       t <- baseFetchFile
              (list_to_map
                 [("token", JSString token);
                  ("outputPath", JSString outputPath)])
              {| eo_url := url; eo_method := "GET";
                 eo_headers :=
                   Some {[ "accept" := "application/vnd.github.v3+json" ]};
                 eo_body := None |} ;;
       detach t ;;
       ret (Plain {| retries := 5; minTimeout := 1000 |}))
    None.

Definition main : M unit :=
  inputRepoString <- lift (core_getInput env "repo" false) ;;
  resolved <- lift (getRepo inputRepoString (context env)) ;;
  let '(Build_GetRepoResult owner repo) := resolved in
  token <- lift (core_getInput env "token" false) ;;
  inputVersion <- lift (core_getInput env "version" false) ;;
  let version := or_else inputVersion "latest" in
  inputTarget <- lift (core_getInput env "target" false) ;;
  file <- lift (core_getInput env "file" true) ;;
  usesRegex <- lift (core_getBooleanInput env "regex" false) ;;
  onlySourceZip <- lift (core_getBooleanInput env "only-source-zip" false) ;;
  let target := if String.eqb inputTarget "" then file else inputTarget in
  inputBaseUrl <- lift (core_getInput env "octokitBaseUrl" false) ;;
  let baseUrl :=
    if String.eqb inputBaseUrl "" then None else Some inputBaseUrl in
  octokit <- lift (getOctokit env token baseUrl) ;;
  release <- lift (rest env octokit (getRelease owner repo version)) ;;
  if onlySourceZip then
    fetchSourceFile (or_else (default "" (zipball_url release)) "")
      (target +:+ file +:+ ".zip") token ;;
    printOutput release
  else
    let assetFilterFn :=
      if usesRegex then filterByRegex env file else filterByFileName file in
    assets <- lift (Array_filter assetFilterFn (assets release)) ;;
    if (List.length assets =? 0)%nat then
      throw (Error "Could not find asset id")
    else
      for_of assets
        (fun asset =>
           fetchAssetFile octokit
             (list_to_map
                [("id", JSInteger (asset_id asset));
                 ("outputPath",
                  JSString (if usesRegex then target +:+ asset_name asset
                            else target));
                 ("owner", JSString owner); ("repo", JSString repo);
                 ("token", JSString token)]) ;;
           ret tt) ;;
      printOutput release.

End Program.
End Part000.

(** ** A pattern compiler for a fragment of the pattern language

    The theorems below hold for any compiler given by the environment.
    This one covers literals, [.], the escapes of punctuation and of the
    classes [\d], [\w], [\s], groups, [|], the quantifiers [*], [+], [?]
    (greedy or lazy) and the anchors; it rejects every other pattern.  It
    decides whether a match exists, which is all [test] asks. *)

Module Engine.

Inductive Regex : Type :=
| Empty
| Symbol (accepts : ascii -> bool)
| Bol
| Eol
| Seq (r1 r2 : Regex)
| Alt (r1 r2 : Regex)
| Star (r : Regex).

(** The positions a match of [r] can end at, when it starts at one of
    [starts].  For [Star] the set grows until it is closed under one more
    round of [r]; there are at most [length input + 1] positions. *)
Fixpoint iterate (step : list nat -> list nat) (fuel : nat)
    (reached : list nat) : list nat :=
  match fuel with
  | O => reached
  | S fuel' =>
      iterate step fuel' (nodup Nat.eq_dec (reached ++ step reached))
  end.

Fixpoint ends (r : Regex) (input : string) (starts : list nat) : list nat :=
  match r with
  | Empty => starts
  | Symbol accepts =>
      flat_map
        (fun i =>
           match String.get i input with
           | Some c => if accepts c then [S i] else []
           | None => []
           end)
        starts
  | Bol => List.filter (fun i => (i =? 0)%nat) starts
  | Eol => List.filter (fun i => (i =? String.length input)%nat) starts
  | Seq r1 r2 => ends r2 input (ends r1 input starts)
  | Alt r1 r2 => nodup Nat.eq_dec (ends r1 input starts ++ ends r2 input starts)
  | Star r' => iterate (ends r' input) (S (String.length input)) starts
  end.

Definition matcher (r : Regex) : Matcher :=
  fun input i =>
    match ends r input [i] with
    | [] => false
    | _ :: _ => true
    end.

(** The term read last: it may still take a quantifier ([Atom]), only the
    lazy mark ([Quantified]), or nothing ([Closed]). *)
Inductive Pending : Type :=
| Nothing
| Atom (r : Regex)
| Quantified (r : Regex)
| Closed (r : Regex).

Definition regex_of (p : Pending) : Regex :=
  match p with
  | Nothing => Empty
  | Atom r | Quantified r | Closed r => r
  end.

Definition isDigit (c : ascii) : bool :=
  let n := N_of_ascii c in ((48 <=? n) && (n <=? 57))%N.

Definition isWord (c : ascii) : bool :=
  let n := N_of_ascii c in
  (isDigit c || ((65 <=? n) && (n <=? 90)) || ((97 <=? n) && (n <=? 122))
   || (n =? 95))%N.

Definition escape (e : ascii) : option Regex :=
  if existsb (Ascii.eqb e) (list_ascii_of_string "^$\.*+?()[]{}|/-")
  then Some (Symbol (Ascii.eqb e))
  else if Ascii.eqb e "d" then Some (Symbol isDigit)
  else if Ascii.eqb e "w" then Some (Symbol isWord)
  else if Ascii.eqb e "s" then Some (Symbol isStrWhiteSpaceChar)
  else if Ascii.eqb e "n" then Some (Symbol (Ascii.eqb "010"))
  else if Ascii.eqb e "r" then Some (Symbol (Ascii.eqb "013"))
  else if Ascii.eqb e "t" then Some (Symbol (Ascii.eqb "009"))
  else None.

(** Reads a disjunction, up to the end of the pattern or, inside a group,
    up to the parenthesis that closes it. *)
Fixpoint parse (fuel : nat) (inside : bool) (s : string)
    (alts : option Regex) (current : Regex) (pending : Pending)
  : option (Regex * string) :=
  let finish :=
    let a := Seq current (regex_of pending) in
    match alts with
    | Some l => Alt l a
    | None => a
    end in
  let shifted := Seq current (regex_of pending) in
  match fuel with
  | O => None
  | S fuel' =>
      match s with
      | EmptyString => if inside then None else Some (finish, EmptyString)
      | String c rest =>
          if Ascii.eqb c ")" then
            if inside then Some (finish, rest) else None
          else if Ascii.eqb c "|" then
            parse fuel' inside rest (Some finish) Empty Nothing
          else if Ascii.eqb c "*" then
            match pending with
            | Atom r =>
                parse fuel' inside rest alts current (Quantified (Star r))
            | _ => None
            end
          else if Ascii.eqb c "+" then
            match pending with
            | Atom r =>
                parse fuel' inside rest alts current
                  (Quantified (Seq r (Star r)))
            | _ => None
            end
          else if Ascii.eqb c "?" then
            match pending with
            | Atom r =>
                parse fuel' inside rest alts current
                  (Quantified (Alt r Empty))
            | Quantified r =>
                parse fuel' inside rest alts current (Closed r)
            | _ => None
            end
          else if Ascii.eqb c "(" then
            let body :=
              match rest with
              | String "?" (String ":" r) => Some r
              | String "?" _ => None
              | _ => Some rest
              end in
            match body with
            | Some b =>
                match parse fuel' true b None Empty Nothing with
                | Some (g, rest') =>
                    parse fuel' inside rest' alts shifted (Atom g)
                | None => None
                end
            | None => None
            end
          else if Ascii.eqb c "\" then
            match rest with
            | String e rest' =>
                match escape e with
                | Some a => parse fuel' inside rest' alts shifted (Atom a)
                | None => None
                end
            | EmptyString => None
            end
          else if Ascii.eqb c "." then
            parse fuel' inside rest alts shifted
              (Atom (Symbol (fun d => negb (isLineTerminator d))))
          else if Ascii.eqb c "^" then
            parse fuel' inside rest alts shifted (Closed Bol)
          else if Ascii.eqb c "$" then
            parse fuel' inside rest alts shifted (Closed Eol)
          else if existsb (Ascii.eqb c) (list_ascii_of_string "[]{}") then
            None
          else parse fuel' inside rest alts shifted (Atom (Symbol (Ascii.eqb c)))
      end
  end.

Definition compile (pattern : string) : option Regex :=
  match parse (S (String.length pattern)) false pattern None Empty Nothing with
  | Some (r, _) => Some r
  | None => None
  end.

Definition RegExp_new (pattern : string) : Completion Matcher :=
  match compile pattern with
  | Some r => Normal (matcher r)
  | None =>
      Throw (SyntaxError ("Invalid regular expression: /" +:+ pattern +:+ "/"))
  end.

End Engine.

(** ** Observations on a run *)

(** The exchanges started, the files written and the outputs published, in
    the order of the events. *)
Definition fetched (es : list Event) : list (nat * Request) :=
  flat_map
    (fun e => match e with Fetch n request => [(n, request)] | _ => [] end)
    es.

Definition written (es : list Event) : list (string * list Byte.byte) :=
  flat_map
    (fun e => match e with WriteFile path data => [(path, data)] | _ => [] end)
    es.

Definition published (es : list Event) : list (string * OutputValue) :=
  flat_map
    (fun e => match e with SetOutput name v => [(name, v)] | _ => [] end)
    es.

(** The delays [retry] waited between attempts. *)
Definition slept (es : list Event) : list N :=
  flat_map (fun e => match e with Sleep ms => [ms] | _ => [] end) es.

(** The filter [main] picks for the asset list. *)
Definition assetFilterFn (env : Env) (usesRegex : bool) (file : string)
  : Asset -> Completion bool :=
  if usesRegex then filterByRegex env file else filterByFileName file.

(** The environment [env], except that every release it resolves carries
    the asset list [l] and that patterns are compiled by [compiler]. *)
Definition with_assets (env : Env) (l : list Asset)
    (compiler : string -> Completion Matcher) : Env :=
  {| context := context env; getOctokit := getOctokit env;
     rest := fun octokit request =>
       match rest env octokit request with
       | Normal release =>
           Normal {| tag_name := tag_name release;
                     release_name := release_name release;
                     release_body := release_body release;
                     zipball_url := zipball_url release;
                     assets := l |}
       | Throw e => Throw e
       end;
     endpoint := endpoint env; network := network env;
     RegExp_new := compiler;
     inputs := inputs env |}.

(** The files an exchange leaves behind when its body goes to [path]. *)
Definition saved (path : string) (result : FetchResult)
  : list (string * list Byte.byte) :=
  match result with
  | Responded response =>
      if ok response then [(path, payload response)] else []
  | Failed _ => []
  end.

(** The environment [env] with the input [target] set to [value]. *)
Definition with_target (env : Env) (value : string) : Env :=
  {| context := context env; getOctokit := getOctokit env; rest := rest env;
     endpoint := endpoint env; network := network env;
     RegExp_new := RegExp_new env;
     inputs := fun name =>
       if String.eqb name "target" then value else inputs env name |}.

(** The events of [printOutput release]. *)
Definition output_events (release : Release) : list Event :=
  [SetOutput "version" (OutString (tag_name release));
   SetOutput "name" (nullable (release_name release));
   SetOutput "body" (nullable (release_body release))].

(** The value [core.getInput] returns for an input that is not required. *)
Definition input (env : Env) (name : string) : string :=
  trim (inputs env name).

(** The values [main] computes from the inputs before it resolves the
    release. *)
Definition version_of (env : Env) : string :=
  or_else (input env "version") "latest".

Definition target_of (env : Env) : string :=
  if String.eqb (input env "target") "" then input env "file"
  else input env "target".

Definition baseUrl_of (env : Env) : option string :=
  if String.eqb (input env "octokitBaseUrl") "" then None
  else Some (input env "octokitBaseUrl").

(** What one attempt that received [response] does between the worlds [w]
    and [w'], with completion [c]; [before] are its events up to the arrival
    of the response. *)
Definition attempt_contract (w w' : World) (c : Completion unit)
    (before : list Event) (outputPath : string) (response : Response)
  : Prop :=
  (c = Normal tt <-> ok response = true)
  /\ (ok response = false ->
      c = Throw (Error "Invalid response")
      /\ events w'
         = events w ++ before
           ++ [ResponseText (exchanges w);
               Warning (string_of_list_byte (payload response))]
      /\ files w' = files w
      /\ directories w' = directories w)
  /\ (ok response = true ->
      events w'
      = events w ++ before
        ++ [ResponseBlob (exchanges w);
            Mkdir (dirname outputPath) true;
            WriteFile outputPath (payload response)]
      /\ files w' = <[outputPath := payload response]> (files w)
      /\ directories w'
         = directories w
           ∪ list_to_set
               (lineage (String.length (dirname outputPath))
                  (dirname outputPath))).

(** Letters of the basic Latin alphabet. *)
Definition isAsciiLetter (c : ascii) : bool :=
  let n := N_of_ascii c in
  (((65 <=? n) && (n <=? 90)) || ((97 <=? n) && (n <=? 122)))%N.

(** ** A small environment, for running the program on examples *)

Module Demo.

Definition release : Release :=
  {| tag_name := "v2.0.0";
     release_name := Some "Two";
     release_body := Some "notes";
     zipball_url := Some "https://api.github.com/repos/octo/cat/zipball/v2.0.0";
     assets :=
       [ {| asset_id := 11; asset_name := "cat-linux.tar.gz" |};
         {| asset_id := 12; asset_name := "cat-macos.tar.gz" |};
         {| asset_id := 13; asset_name := "checksums.txt" |} ] |}.

(** The inputs of the step, as a table. *)
Definition table (l : list (string * string)) (name : string) : string :=
  default "" ((list_to_map l : gmap string string) !! name).

(** A server that answers every request with [status] and [body]. *)
Definition answers (status : N) (body : string)
  : nat -> Request -> FetchResult :=
  fun _ _ =>
    Responded {| status := status; payload := list_byte_of_string body |}.

Definition env (l : list (string * string))
    (network : nat -> Request -> FetchResult) : Env :=
  {| context := {| context_repo := {| owner := "octo"; repo := "cat" |} |};
     getOctokit := fun token baseUrl =>
       Normal {| auth := token; baseUrl := baseUrl |};
     rest := fun _ _ => Normal release;
     endpoint := fun _ _ parameters =>
       {| eo_method := "GET";
          eo_url := "https://api.github.com/repos/octo/cat/releases/assets/"
                    +:+ ToString (prop parameters "asset_id");
          eo_headers :=
            Some {[ "accept" := "application/vnd.github.v3+json" ]};
          eo_body := None |};
     network := network;
     RegExp_new := Engine.RegExp_new;
     inputs := table l |}.

(** A server that answers 503 to the exchanges before number [k] and 200
    with [body] from then on. *)
Definition succeeds_from (k : nat) (body : string)
  : nat -> Request -> FetchResult :=
  fun n _ =>
    if (n <? k)%nat then
      Responded {| status := 503;
                   payload := list_byte_of_string "unavailable" |}
    else Responded {| status := 200; payload := list_byte_of_string body |}.

Definition octokit : Octokit := {| auth := "t"; baseUrl := None |}.

(** Inputs of an archive run, of a run by pattern and of a run by name. *)
Definition archive_inputs : list (string * string) :=
  [("file", "cat"); ("target", "source"); ("only-source-zip", "true");
   ("regex", "false"); ("token", "t")].

Definition pattern_inputs : list (string * string) :=
  [("file", "\.tar\.gz$"); ("target", "dist/"); ("only-source-zip", "false");
   ("regex", "true"); ("token", "t")].

Definition name_inputs : list (string * string) :=
  [("file", "checksums.txt"); ("only-source-zip", "false");
   ("regex", "false"); ("token", "t")].

End Demo.

(** ** More names for statements *)

(** The text of [s] before its first [sep] (all of [s] without one), and the
    text after it. *)
Fixpoint before (sep : ascii) (s : string) : string :=
  match s with
  | EmptyString => EmptyString
  | String c rest =>
      if Ascii.eqb c sep then EmptyString else String c (before sep rest)
  end.

Fixpoint after (sep : ascii) (s : string) : option string :=
  match s with
  | EmptyString => None
  | String c rest => if Ascii.eqb c sep then Some rest else after sep rest
  end.

(** Strings of decimal digits and their value. *)
Definition isDecimalDigit (c : ascii) : bool :=
  let n := N_of_ascii c in ((48 <=? n) && (n <=? 57))%N.

Fixpoint allDigits (s : string) : bool :=
  match s with
  | EmptyString => true
  | String c rest => isDecimalDigit c && allDigits rest
  end.

Fixpoint decimalValue (s : string) (acc : N) : N :=
  match s with
  | EmptyString => acc
  | String c rest => decimalValue rest (acc * 10 + (N_of_ascii c - 48))%N
  end.

(** A network on which every exchange fails. *)
Definition no_network : nat -> Request -> FetchResult :=
  fun _ _ => Failed (TypeError "fetch failed").

(** The route both files expand for the download of an asset. *)
Definition asset_route : string :=
  "GET /repos/:owner/:repo/releases/assets/:asset_id".





(** The environment [env] with the input [version] set to [value]. *)
Definition with_version (env : Env) (value : string) : Env :=
  {| context := context env; getOctokit := getOctokit env; rest := rest env;
     endpoint := endpoint env; network := network env;
     RegExp_new := RegExp_new env;
     inputs := fun name =>
       if String.eqb name "version" then value else inputs env name |}.

(** * Properties *)

(** ** Strings *)

Lemma append_nil (s : string) : "" +:+ s = s.
Proof. reflexivity. Qed.

Lemma append_cons (c : ascii) (s t : string) :
  String c s +:+ t = String c (s +:+ t).
Proof. reflexivity. Qed.

Lemma append_cons_not_empty (s : string) (c : ascii) (t : string) :
  String.eqb (s +:+ String c t) "" = false.
Proof. destruct s; reflexivity. Qed.

Lemma split_without_separator (sep : ascii) (s : string) :
  occurs sep s = false -> split sep s = [s].
Proof.
  induction s as [|c s IH]; cbn; [reflexivity|].
  intros H. apply orb_false_iff in H as [Hc Hs].
  rewrite Hc, (IH Hs). reflexivity.
Qed.

Lemma split_at_first_separator (sep : ascii) (s t : string) :
  occurs sep s = false ->
  split sep (s +:+ String sep t) = s :: split sep t.
Proof.
  induction s as [|c s IH]; rewrite ?append_nil, ?append_cons; cbn.
  - intros _. rewrite Ascii.eqb_refl. reflexivity.
  - intros H. apply orb_false_iff in H as [Hc Hs].
    rewrite Hc, (IH Hs). reflexivity.
Qed.

Lemma stripPrefix_append (prefix rest : string) :
  stripPrefix prefix (prefix +:+ rest) = Some rest.
Proof.
  induction prefix as [|c p IH]; rewrite ?append_nil, ?append_cons; cbn;
    [reflexivity|].
  rewrite Ascii.eqb_refl. exact IH.
Qed.

Lemma stripPrefix_Some (prefix s rest : string) :
  stripPrefix prefix s = Some rest -> s = prefix +:+ rest.
Proof.
  revert s. induction prefix as [|c p IH]; intros s; cbn.
  - intros [= ->]. reflexivity.
  - destruct s as [|d s]; [discriminate|].
    destruct (Ascii.eqb_spec c d) as [->|]; [|discriminate].
    intros H. rewrite (IH _ H). reflexivity.
Qed.


(** ** getRepo *)

(** C3.  For an input [owner/name] whose two halves hold no slash, getRepo
    returns exactly that pair; for the empty input it returns the pair of
    the ambient context; for a non-empty input without a slash it throws
    the error Malformed repo. *)
Theorem getRepo_spec (context : Context) :
  (forall o n : string,
      occurs "/" o = false -> occurs "/" n = false ->
      getRepo (o +:+ "/" +:+ n) context = Normal {| owner := o; repo := n |})
  /\ getRepo "" context = Normal (context_repo context)
  /\ (forall s : string,
         s <> "" -> occurs "/" s = false ->
         getRepo s context = Throw (Error "Malformed repo")).
Proof.
  repeat split.
  - intros o n Ho Hn. unfold getRepo.
    change (o +:+ "/" +:+ n) with (o +:+ String "/" n).
    rewrite append_cons_not_empty, (split_at_first_separator _ _ _ Ho).
    rewrite (split_without_separator _ _ Hn). reflexivity.
  - destruct context as [[o n]]. reflexivity.
  - intros s Hs Hslash. unfold getRepo.
    apply String.eqb_neq in Hs. rewrite Hs.
    rewrite (split_without_separator _ _ Hslash). reflexivity.
Qed.

(** [getRepo_spec] on the inputs octo/cat and octocat. *)
Lemma getRepo_spec_witness :
  getRepo "octo/cat" {| context_repo := {| owner := "a"; repo := "b" |} |}
  = Normal {| owner := "octo"; repo := "cat" |}
  /\ getRepo "octocat" {| context_repo := {| owner := "a"; repo := "b" |} |}
     = Throw (Error "Malformed repo").
Proof.
  pose proof (getRepo_spec
                {| context_repo := {| owner := "a"; repo := "b" |} |})
    as (Hpair & _ & Hbad).
  split.
  - apply (Hpair "octo" "cat"); reflexivity.
  - apply (Hbad "octocat"); [discriminate | reflexivity].
Defined.

(** ** Number *)

Lemma trim_keeps_head (c : ascii) (rest : string) :
  isStrWhiteSpaceChar c = false ->
  exists rest', trim (String c rest) = String c rest'.
Proof.
  intros Hc. unfold trim. cbn [trimStart]. rewrite Hc. cbn [trimEnd].
  destruct (trimEnd rest) as [|d r].
  - rewrite Hc. eexists; reflexivity.
  - eexists; reflexivity.
Qed.

(** A string that starts with a letter other than [I] is no numeric
    literal. *)
Lemma Number_of_word (c : ascii) (rest : string) :
  isAsciiLetter c = true -> c <> "I"%char ->
  Number (String c rest) = NaN.
Proof.
  intros Hletter HI. unfold Number, StringToNumber.
  destruct (trim_keeps_head c rest) as [rest' ->].
  { destruct c as [[] [] [] [] [] [] [] []]; try discriminate; reflexivity. }
  destruct c as [[] [] [] [] [] [] [] []]; try discriminate;
    try reflexivity; try (exfalso; apply HI; reflexivity).
Qed.

(** Some values of [Number] and [Math.trunc]: an integer, a fraction, the
    tie above [2^53] that rounds to even, the overflow to infinity and the
    strings that are no numeric literal. *)
Example Number_examples :
  Number "12345" = integer 12345
  /\ Number " 42 " = integer 42
  /\ Number "" = integer 0
  /\ Number "0x1f" = integer 31
  /\ Number "0.1" = Finite false 3602879701896397 55
  /\ Math_trunc (Number "-12.9") = integer (-12)
  /\ Number "9007199254740993" = integer 9007199254740992
  /\ Number "1e309" = Infinity false
  /\ Number "12px" = NaN
  /\ Number "v1.2.3" = NaN.
Proof. vm_compute. repeat split. Qed.

(** ** getRelease *)

(** On these descriptors the hand-compiled [match_tags] agrees with the
    pattern of the source run through the pattern compiler of this file. *)
Example match_tags_agrees_with_engine :
  forallb
    (fun version =>
       match Engine.RegExp_new "^tags\/(.*)$" with
       | Normal m =>
           Bool.eqb (RegExp_test m version)
             (match match_tags version with Some _ => true | None => false end)
       | Throw _ => false
       end)
    ["latest"; "tags/"; "tags/v1.2.3"; "tags"; "xtags/v1"; "tags/a/b";
     "12345"; "Tags/v1"; ""]
  = true.
Proof. vm_compute. reflexivity. Qed.

Lemma match_tags_Some (version : string) (matched : list string) :
  match_tags version = Some matched ->
  exists rest, version = "tags/" +:+ rest /\ hasLineTerminator rest = false
               /\ matched = [version; rest].
Proof.
  unfold match_tags. destruct (stripPrefix "tags/" version) as [rest|] eqn:E;
    [|discriminate].
  apply stripPrefix_Some in E.
  destruct (hasLineTerminator rest) eqn:Hlt; [discriminate|].
  intros [= <-]. exists rest. auto.
Qed.

Lemma match_tags_tag (tag : string) :
  hasLineTerminator tag = false ->
  match_tags ("tags/" +:+ tag) = Some ["tags/" +:+ tag; tag].
Proof.
  intros H. unfold match_tags. rewrite stripPrefix_append, H. reflexivity.
Qed.

(** C4.  getRelease asks for the latest release on the descriptor latest;
    on tags/ followed by a non-empty tag without line terminator it asks
    for the release whose tag is exactly that tag; on every other
    descriptor it asks for the release whose id is the descriptor coerced
    to a number and truncated, which is NaN when the descriptor is not
    numeric: nothing validates it first. *)
Theorem getRelease_dispatch (owner repo : string) :
  getRelease owner repo "latest" = repos_getLatestRelease owner repo
  /\ (forall tag : string,
         tag <> "" -> hasLineTerminator tag = false ->
         getRelease owner repo ("tags/" +:+ tag)
         = repos_getReleaseByTag owner repo tag)
  /\ (forall version : string,
         version <> "latest" ->
         (forall tag : string,
             tag <> "" -> hasLineTerminator tag = false ->
             version <> "tags/" +:+ tag) ->
         getRelease owner repo version
         = repos_getRelease owner repo (Math_trunc (Number version)))
  /\ getRelease owner repo "12345"
     = repos_getRelease owner repo (integer 12345)
  /\ (forall (c : ascii) (rest : string),
         isAsciiLetter c = true -> c <> "I"%char ->
         String c rest <> "latest" ->
         (forall tag : string,
             tag <> "" -> hasLineTerminator tag = false ->
             String c rest <> "tags/" +:+ tag) ->
         getRelease owner repo (String c rest)
         = repos_getRelease owner repo NaN).
Proof.
  assert (Hother : forall version : string,
             version <> "latest" ->
             (forall tag : string,
                 tag <> "" -> hasLineTerminator tag = false ->
                 version <> "tags/" +:+ tag) ->
             getRelease owner repo version
             = repos_getRelease owner repo (Math_trunc (Number version))).
  { intros version Hlatest Htag. unfold getRelease.
    apply String.eqb_neq in Hlatest. rewrite Hlatest.
    destruct (match_tags version) as [matched|] eqn:E; [|reflexivity].
    apply match_tags_Some in E as (rest & Hv & Hlt & ->).
    destruct (String.eqb_spec rest "") as [->|Hne].
    - reflexivity.
    - exfalso. apply (Htag rest Hne Hlt Hv). }
  split; [reflexivity|]. split; [|split; [exact Hother|split]].
  - intros tag Hne Hlt. unfold getRelease.
    rewrite (match_tags_tag _ Hlt).
    apply String.eqb_neq in Hne. unfold truthy_at. cbn [lookup list_lookup].
    rewrite Hne. reflexivity.
  - vm_compute. reflexivity.
  - intros c rest Hletter HI Hlatest Htag.
    rewrite (Hother _ Hlatest Htag), (Number_of_word _ _ Hletter HI).
    reflexivity.
Qed.

(** [getRelease_dispatch] on a tag, on a decimal literal and on a word. *)
Lemma getRelease_dispatch_witness :
  getRelease "o" "r" "tags/v1.2.3" = repos_getReleaseByTag "o" "r" "v1.2.3"
  /\ getRelease "o" "r" "1.9e1"
     = repos_getRelease "o" "r" (Math_trunc (Number "1.9e1"))
  /\ getRelease "o" "r" "nightly" = repos_getRelease "o" "r" NaN.
Proof.
  pose proof (getRelease_dispatch "o" "r") as (_ & Htag & Hid & _ & Hnan).
  split; [|split].
  - apply (Htag "v1.2.3"); [discriminate | reflexivity].
  - apply (Hid "1.9e1"); [discriminate | discriminate].
  - apply (Hnan "n"%char "ightly");
      [reflexivity | discriminate | discriminate | discriminate].
Defined.

(** C10.  On the descriptor tags/ the pattern matches with an empty
    capture, the guard on the capture rejects it, and getRelease asks for
    the release whose id is Math.trunc(Number('tags/')), that is NaN. *)
Theorem getRelease_empty_tag (owner repo : string) :
  match_tags "tags/" = Some ["tags/"; ""]
  /\ truthy_at ["tags/"; ""] 1 = false
  /\ Math_trunc (Number "tags/") = NaN
  /\ getRelease owner repo "tags/" = repos_getRelease owner repo NaN.
Proof. repeat split. Qed.

(** ** Asset filters *)

Lemma Array_filter_total {A} (p : A -> bool) (l : list A) :
  Array_filter (fun x => Normal (p x)) l = Normal (List.filter p l).
Proof.
  induction l as [|x l IH]; cbn; [reflexivity|].
  rewrite IH. destruct (p x); reflexivity.
Qed.

Lemma Array_filter_ext {A} (p q : A -> Completion bool) (l : list A) :
  (forall x, p x = q x) -> Array_filter p l = Array_filter q l.
Proof.
  intros H. induction l as [|x l IH]; cbn; [reflexivity|].
  rewrite H, IH. reflexivity.
Qed.

Lemma Array_filter_by_name (file : string) (l : list Asset) :
  Array_filter (filterByFileName file) l
  = Normal (List.filter (fun a => String.eqb file (asset_name a)) l).
Proof. apply Array_filter_total. Qed.

Lemma Array_filter_by_regex (env : Env) (file : string) (m : Matcher)
    (l : list Asset) :
  RegExp_new env file = Normal m ->
  Array_filter (filterByRegex env file) l
  = Normal (List.filter (fun a => RegExp_test m (asset_name a)) l).
Proof.
  intros H. rewrite <- Array_filter_total. apply Array_filter_ext.
  intros a. unfold filterByRegex. rewrite H. reflexivity.
Qed.

(** A pattern that does not compile makes the filter throw as soon as
    there is an asset to test. *)
Lemma Array_filter_by_invalid_regex (env : Env) (file : string)
    (e : JSError) (a : Asset) (l : list Asset) :
  RegExp_new env file = Throw e ->
  Array_filter (filterByRegex env file) [] = Normal []
  /\ Array_filter (filterByRegex env file) (a :: l) = Throw e.
Proof.
  intros H. split; [reflexivity|]. cbn. unfold filterByRegex. rewrite H.
  reflexivity.
Qed.

Lemma filter_keeps_order {A} (p : A -> bool) (l : list A) :
  sublist (List.filter p l) l.
Proof.
  induction l as [|x l IH]; cbn; [constructor|].
  destruct (p x); constructor; exact IH.
Qed.

Lemma filter_none {A} (p : A -> bool) (l : list A) :
  (forall x, In x l -> p x = false) -> List.filter p l = [].
Proof.
  induction l as [|x l IH]; cbn; [reflexivity|].
  intros H. rewrite (H x (or_introl eq_refl)). apply IH.
  intros y Hy. apply H. right. exact Hy.
Qed.

(** [test] searches: it holds exactly when the matcher succeeds from some
    index of the input, its end included. *)
Lemma RegExp_test_searches (m : Matcher) (input : string) :
  RegExp_test m input = true
  <-> exists i, (i <= String.length input)%nat /\ m input i = true.
Proof.
  unfold RegExp_test. rewrite existsb_exists. split.
  - intros (i & Hin & Hm). exists i. split; [|exact Hm].
    apply in_seq in Hin. lia.
  - intros (i & Hle & Hm). exists i. split; [|exact Hm].
    apply in_seq. lia.
Qed.

(** C5.  In exact mode the filter keeps exactly the assets whose name is
    the query, code unit for code unit (so case-sensitively).  In pattern
    mode, for a query that compiles, it keeps exactly the assets whose name
    has a match of the pattern starting at some index (a search, not a
    match of the whole name).  Both keep the assets in the order of the
    list, and when nothing matches the result is the empty list, not an
    error. *)
Theorem asset_filter_spec (env : Env) (file : string) (l : list Asset) :
  (exists kept,
      Array_filter (filterByFileName file) l = Normal kept
      /\ kept = List.filter (fun a => String.eqb file (asset_name a)) l
      /\ (forall a, In a kept <-> In a l /\ asset_name a = file)
      /\ sublist kept l
      /\ ((forall a, In a l -> asset_name a <> file) -> kept = []))
  /\ (forall m : Matcher,
         RegExp_new env file = Normal m ->
         exists kept,
           Array_filter (filterByRegex env file) l = Normal kept
           /\ kept = List.filter (fun a => RegExp_test m (asset_name a)) l
           /\ (forall a,
                  In a kept
                  <-> In a l
                      /\ exists i, (i <= String.length (asset_name a))%nat
                                   /\ m (asset_name a) i = true)
           /\ sublist kept l
           /\ ((forall a, In a l -> RegExp_test m (asset_name a) = false)
               -> kept = [])).
Proof.
  split.
  - eexists. split; [apply Array_filter_by_name|]. split; [reflexivity|].
    split; [|split].
    + intros a. rewrite filter_In. split.
      * intros [Hin Heq]. apply String.eqb_eq in Heq. auto.
      * intros [Hin Heq]. split; [exact Hin|].
        apply String.eqb_eq. auto.
    + apply filter_keeps_order.
    + intros H. apply filter_none. intros a Ha.
      apply String.eqb_neq. intros Heq. apply (H a Ha). auto.
  - intros m Hm. eexists. split; [apply (Array_filter_by_regex _ _ _ _ Hm)|].
    split; [reflexivity|]. split; [|split].
    + intros a. rewrite filter_In, RegExp_test_searches. reflexivity.
    + apply filter_keeps_order.
    + intros H. apply filter_none. exact H.
Qed.

(** [asset_filter_spec] on the assets of the example release and a pattern
    that two of the three names contain. *)
Lemma asset_filter_spec_witness :
  exists kept,
    Array_filter
      (filterByRegex (Demo.env [] (Demo.answers 200 "")) "\.tar\.gz")
      (assets Demo.release)
    = Normal kept
    /\ kept
       = [ {| asset_id := 11; asset_name := "cat-linux.tar.gz" |};
           {| asset_id := 12; asset_name := "cat-macos.tar.gz" |} ].
Proof.
  destruct (asset_filter_spec (Demo.env [] (Demo.answers 200 "")) "\.tar\.gz"
              (assets Demo.release)) as [_ H].
  destruct (H _ eq_refl) as (kept & Hkept & Heq & _).
  exists kept. split; [exact Hkept|]. rewrite Heq. vm_compute. reflexivity.
Defined.

(** ** One attempt *)

Lemma retry_plain (resume : Task -> M unit) (fn : nat -> M Returned)
    (opts : option RetryOptions) (w w' : World) (object : RetryOptions) :
  fn 1%nat w = (w', Normal (Plain object)) ->
  retry resume fn opts w = (w', Normal (Some object)).
Proof.
  intros H. unfold retry.
  destruct (retries (default defaultRetryOptions opts)); cbn; rewrite H;
    reflexivity.
Qed.

Lemma world_eq (w1 w2 : World) :
  events w1 = events w2 -> files w1 = files w2 ->
  directories w1 = directories w2 -> exchanges w1 = exchanges w2 ->
  inflight w1 = inflight w2 -> unhandled w1 = unhandled w2 -> w1 = w2.
Proof. destruct w1, w2; cbn; intros; subst; reflexivity. Qed.

(** Unfolds the effects of a program and reads the fields of the worlds
    they build. *)
Ltac js :=
  cbv beta iota zeta delta
    [bind ret throw lift try_catch emit core_warning core_setOutput fetch
     detach response_text response_arrayBuffer mkdir_recursive writeFile
     printOutput reject_unhandled clear_inflight];
  cbn [events files directories exchanges inflight unhandled
       task_parameters task_exchange task_request
       req_url req_method req_headers req_body fst snd negb].

Lemma lineage_head (fuel : nat) (dir : string) : In dir (lineage fuel dir).
Proof.
  destruct fuel; cbn; [left; reflexivity|].
  destruct (String.eqb (dirname dir) dir); left; reflexivity.
Qed.

(** C7.  One attempt of baseFetchFile that receives a response, in either
    source file: the attempt completes normally exactly when the status of
    the response is a success; on another status it reads the body as text,
    logs it and throws Invalid response, and neither the files nor the
    directories change; on success it reads the whole body, creates the
    directory of the output path with the directories above it, and writes
    the body at the output path, whatever was there. *)
Theorem attempt_spec (env : Env) (parameters : gmap string JSValue)
    (eo : EndpointOptions) (w : World) (outputPath : string)
    (response : Response) :
  prop parameters "outputPath" = JSString outputPath ->
  (network env (exchanges w) (IndexTs.request parameters eo)
   = Responded response ->
   attempt_contract w
     (fst (IndexTs.attempt env parameters eo w))
     (snd (IndexTs.attempt env parameters eo w))
     (IndexTs.logged eo
      ++ [Fetch (exchanges w) (IndexTs.request parameters eo);
          Warning "Response: [object Response]"])
     outputPath response)
  /\ (network env (exchanges w) (Part000.request parameters eo)
      = Responded response ->
      attempt_contract w
        (fst (Part000.attempt env parameters eo w))
        (snd (Part000.attempt env parameters eo w))
        [Fetch (exchanges w) (Part000.request parameters eo)]
        outputPath response).
Proof.
  intros Hpath. split; intros Hnet.
  - unfold IndexTs.attempt, IndexTs.baseFetchFile,
      IndexTs.baseFetchFile_resume, IndexTs.logged. js.
    fold (IndexTs.request parameters eo). rewrite Hnet.
    unfold attempt_contract.
    destruct (ok response); js; rewrite ?Hpath; js.
    + split; [tauto|]. split; [discriminate|]. intros _.
      repeat split. rewrite <- !app_assoc. reflexivity.
    + split; [split; discriminate|]. split; [|discriminate]. intros _.
      repeat split. rewrite <- !app_assoc. reflexivity.
  - unfold Part000.attempt, Part000.baseFetchFile,
      Part000.baseFetchFile_resume. js.
    fold (Part000.request parameters eo). rewrite Hnet.
    unfold attempt_contract.
    destruct (ok response); js; rewrite ?Hpath; js.
    + split; [tauto|]. split; [discriminate|]. intros _.
      repeat split. rewrite <- !app_assoc. reflexivity.
    + split; [split; discriminate|]. split; [|discriminate]. intros _.
      repeat split. rewrite <- !app_assoc. reflexivity.
Qed.

(** [attempt_spec] on an exchange answered 200 with the body data. *)
Lemma attempt_spec_witness :
  let env := Demo.env [] (Demo.answers 200 "data") in
  let parameters : gmap string JSValue :=
    list_to_map [("outputPath", JSString "dist/app.zip");
                 ("token", JSString "t")] in
  let eo :=
    {| eo_method := "GET"; eo_url := "https://example.org/app.zip";
       eo_headers := None; eo_body := None |} in
  snd (IndexTs.attempt env parameters eo initial) = Normal tt
  /\ files (fst (Part000.attempt env parameters eo initial))
     = {[ "dist/app.zip" := list_byte_of_string "data" ]}.
Proof.
  intros env parameters eo.
  destruct (attempt_spec env parameters eo initial "dist/app.zip"
              {| status := 200; payload := list_byte_of_string "data" |}
              eq_refl) as [H1 H2].
  split.
  - apply (H1 eq_refl). reflexivity.
  - destruct (H2 eq_refl) as (_ & _ & H). destruct (H eq_refl) as (_ & Hf & _).
    rewrite Hf. reflexivity.
Defined.

(** ** The fetchers: one exchange started, nothing waited for *)

Lemma index_ts_fetchAssetFile (env : Env) (octokit : Octokit)
    (parameters : gmap string JSValue) (w : World) :
  IndexTs.fetchAssetFile env octokit parameters w
  = (launched (IndexTs.logged (IndexTs.asset_endpoint env octokit parameters))
       parameters
       (IndexTs.request parameters
          (IndexTs.asset_endpoint env octokit parameters)) w,
     Normal (Some handed_back)).
Proof.
  apply retry_plain.
  unfold IndexTs.baseFetchFile, launched, IndexTs.logged, IndexTs.request,
    IndexTs.asset_endpoint, createEndpointOptions. js.
  rewrite <- app_assoc. reflexivity.
Qed.

Lemma index_ts_fetchSourceFile (env : Env)
    (parameters : gmap string JSValue) (url : string) (w : World) :
  IndexTs.fetchSourceFile env parameters url w
  = (launched (IndexTs.logged (IndexTs.source_endpoint url)) parameters
       (IndexTs.request parameters (IndexTs.source_endpoint url)) w,
     Normal (Some handed_back)).
Proof.
  apply retry_plain.
  unfold IndexTs.baseFetchFile, launched, IndexTs.logged, IndexTs.request,
    IndexTs.source_endpoint. js.
  rewrite <- app_assoc. reflexivity.
Qed.

Lemma part_000_fetchAssetFile (env : Env) (octokit : Octokit)
    (parameters : gmap string JSValue) (w : World) :
  Part000.fetchAssetFile env octokit parameters w
  = (launched [] parameters
       (Part000.request parameters
          (Part000.asset_endpoint env octokit parameters)) w,
     Normal (Some handed_back)).
Proof.
  apply retry_plain.
  unfold Part000.baseFetchFile, launched, Part000.request,
    Part000.asset_endpoint, createEndpointOptions. js. reflexivity.
Qed.

Lemma part_000_fetchSourceFile (env : Env) (url outputPath token : string)
    (w : World) :
  Part000.fetchSourceFile env url outputPath token w
  = (launched [] (Part000.source_parameters token outputPath)
       (Part000.request (Part000.source_parameters token outputPath)
          (Part000.source_endpoint url)) w,
     Normal (Some handed_back)).
Proof.
  apply retry_plain.
  unfold Part000.baseFetchFile, launched, Part000.request,
    Part000.source_endpoint, Part000.source_parameters. js. reflexivity.
Qed.

Lemma for_of_launches (fetchOne : Asset -> M (option RetryOptions))
    (step : Asset -> World -> World) (l : list Asset) (w : World) :
  (forall a w, fetchOne a w = (step a w, Normal (Some handed_back))) ->
  for_of l (fun a => fetchOne a ;; ret tt) w
  = (fold_left (fun w a => step a w) l w, Normal tt).
Proof.
  intros H. revert w. induction l as [|a l IH]; intros w; cbn.
  - reflexivity.
  - unfold bind at 1. unfold bind at 1. rewrite H. unfold ret at 1. apply IH.
Qed.

(** ** main, once the release is resolved *)

Lemma getInput_optional (env : Env) (name : string) :
  core_getInput env name false = Normal (input env name).
Proof. reflexivity. Qed.

Lemma getInput_required (env : Env) (name : string) :
  inputs env name <> "" ->
  core_getInput env name true = Normal (input env name).
Proof.
  intros H. unfold core_getInput. apply String.eqb_neq in H. rewrite H.
  reflexivity.
Qed.

Section Resolved.

Variables (env : Env) (o r : string) (usesRegex onlySourceZip : bool).
Variables (octokit : Octokit) (release : Release).

Hypothesis Hrepo :
  getRepo (input env "repo") (context env) = Normal {| owner := o; repo := r |}.
Hypothesis Hfile : inputs env "file" <> "".
Hypothesis Hregex : core_getBooleanInput env "regex" false = Normal usesRegex.
Hypothesis Hzip :
  core_getBooleanInput env "only-source-zip" false = Normal onlySourceZip.
Hypothesis Hoctokit :
  getOctokit env (input env "token") (baseUrl_of env) = Normal octokit.
Hypothesis Hrelease :
  rest env octokit (getRelease o r (version_of env)) = Normal release.

(** Runs [main] up to the test of the mode. *)
Ltac resolve :=
  unfold version_of, baseUrl_of in *;
  rewrite !getInput_optional, (getInput_required env "file" Hfile);
  js; rewrite Hrepo; js; rewrite Hregex; js; rewrite Hzip; js;
  rewrite Hoctokit; js; rewrite Hrelease; js.

Lemma index_ts_main_archive (w : World) :
  onlySourceZip = true ->
  IndexTs.main env w
  = (after_events (output_events release)
       (launched
          (IndexTs.logged
             (IndexTs.source_endpoint
                (or_else (default "" (zipball_url release)) "")))
          (IndexTs.source_parameters (target_of env) o r (input env "token"))
          (IndexTs.request
             (IndexTs.source_parameters (target_of env) o r
                (input env "token"))
             (IndexTs.source_endpoint
                (or_else (default "" (zipball_url release)) "")))
          (after_events
             [Warning "Value onlySourceZip true";
              Warning ("Download zipball_url "
                       +:+ default "null" (zipball_url release))] w)),
     Normal tt).
Proof.
  intros ->. unfold IndexTs.main. resolve.
  fold (target_of env).
  change (list_to_map _) with
    (IndexTs.source_parameters (target_of env) o r (input env "token")).
  rewrite index_ts_fetchSourceFile.
  unfold after_events, launched. js.
  rewrite <- !app_assoc. reflexivity.
Qed.

Lemma part_000_main_archive (w : World) :
  onlySourceZip = true ->
  Part000.main env w
  = (after_events (output_events release)
       (launched []
          (Part000.source_parameters (input env "token")
             (target_of env +:+ input env "file" +:+ ".zip"))
          (Part000.request
             (Part000.source_parameters (input env "token")
                (target_of env +:+ input env "file" +:+ ".zip"))
             (Part000.source_endpoint
                (or_else (default "" (zipball_url release)) "")))
          w),
     Normal tt).
Proof.
  intros ->. unfold Part000.main. resolve.
  fold (target_of env).
  rewrite part_000_fetchSourceFile.
  unfold after_events, launched. js.
  rewrite <- !app_assoc. reflexivity.
Qed.

Lemma index_ts_main_assets (matched : list Asset) (w : World) :
  onlySourceZip = false ->
  Array_filter (assetFilterFn env usesRegex (input env "file"))
    (assets release) = Normal matched ->
  IndexTs.main env w
  = match matched with
    | [] =>
        (after_events [Warning "Value onlySourceZip false"] w,
         Throw (Error "Could not find asset id"))
    | _ :: _ =>
        (after_events (output_events release)
           (fold_left
              (fun w a =>
                 IndexTs.launch_asset env octokit usesRegex (target_of env)
                   o r (input env "token") a w)
              matched
              (after_events [Warning "Value onlySourceZip false"] w)),
         Normal tt)
    end.
Proof.
  intros -> Hmatched. unfold IndexTs.main. resolve.
  fold (target_of env). fold (assetFilterFn env usesRegex (input env "file")).
  rewrite Hmatched. js.
  destruct matched as [|a l]; [reflexivity|].
  cbn [List.length Nat.eqb].
  rewrite (for_of_launches
             (fun asset =>
                IndexTs.fetchAssetFile env octokit
                  (IndexTs.asset_parameters usesRegex (target_of env) o r
                     (input env "token") asset))
             (IndexTs.launch_asset env octokit usesRegex (target_of env) o r
                (input env "token"))).
  - unfold after_events, output_events. js.
    rewrite <- !app_assoc. reflexivity.
  - intros asset w'. apply index_ts_fetchAssetFile.
Qed.

Lemma part_000_main_assets (matched : list Asset) (w : World) :
  onlySourceZip = false ->
  Array_filter (assetFilterFn env usesRegex (input env "file"))
    (assets release) = Normal matched ->
  Part000.main env w
  = match matched with
    | [] => (w, Throw (Error "Could not find asset id"))
    | _ :: _ =>
        (after_events (output_events release)
           (fold_left
              (fun w a =>
                 Part000.launch_asset env octokit usesRegex (target_of env)
                   o r (input env "token") a w)
              matched w),
         Normal tt)
    end.
Proof.
  intros -> Hmatched. unfold Part000.main. resolve.
  fold (target_of env). fold (assetFilterFn env usesRegex (input env "file")).
  rewrite Hmatched. js.
  destruct matched as [|a l]; [reflexivity|].
  cbn [List.length Nat.eqb].
  rewrite (for_of_launches
             (fun asset =>
                Part000.fetchAssetFile env octokit
                  (Part000.asset_parameters usesRegex (target_of env) o r
                     (input env "token") asset))
             (Part000.launch_asset env octokit usesRegex (target_of env) o r
                (input env "token"))).
  - unfold after_events, output_events. js.
    rewrite <- !app_assoc. reflexivity.
  - intros asset w'. apply part_000_fetchAssetFile.
Qed.

End Resolved.

(** ** Archive mode *)

Lemma drain_one (resume : Task -> M unit) (w : World) (t : Task) :
  inflight w = [t] ->
  drain resume w
  = match resume t (clear_inflight w) with
    | (w', Normal _) => w'
    | (w', Throw e) => reject_unhandled e w'
    end.
Proof. intros H. unfold drain. rewrite H. reflexivity. Qed.

Lemma fetched_app (es1 es2 : list Event) :
  fetched (es1 ++ es2) = fetched es1 ++ fetched es2.
Proof. unfold fetched. apply flat_map_app. Qed.



(** The archive run of [src/unnamed/part_000], observed. *)
Lemma part_000_archive_run (env : Env) (o r : string) (usesRegex : bool)
    (octokit : Octokit) (release : Release) :
  getRepo (input env "repo") (context env)
  = Normal {| owner := o; repo := r |} ->
  inputs env "file" <> "" ->
  core_getBooleanInput env "regex" false = Normal usesRegex ->
  core_getBooleanInput env "only-source-zip" false = Normal true ->
  getOctokit env (input env "token") (baseUrl_of env) = Normal octokit ->
  rest env octokit (getRelease o r (version_of env)) = Normal release ->
  let path := target_of env +:+ input env "file" +:+ ".zip" in
  let request :=
    Part000.request (Part000.source_parameters (input env "token") path)
      (Part000.source_endpoint
         (or_else (default "" (zipball_url release)) "")) in
  exists w,
    run (Part000.baseFetchFile_resume env) (Part000.main env) = (w, Normal tt)
    /\ exchanges w = 1%nat
    /\ fetched (events w) = [(0%nat, request)]
    /\ written (events w) = saved path (network env 0%nat request)
    /\ published (events w) = published (output_events release).
Proof.
  intros Hrepo Hfile Hregex Hzip Hoctokit Hrelease path request.
  unfold run.
  rewrite (part_000_main_archive env o r usesRegex true octokit release
             Hrepo Hfile Hregex Hzip Hoctokit Hrelease initial eq_refl).
  fold path. fold request.
  rewrite (drain_one _ _
             {| task_parameters :=
                  Part000.source_parameters (input env "token") path;
                task_exchange := 0; task_request := request |})
    by reflexivity.
  unfold Part000.baseFetchFile_resume, saved. js.
  destruct (network env 0%nat request) as [response|e]; js.
  - destruct (ok response); js.
    + change (prop _ "outputPath") with (JSString path). js.
      eexists. split; [reflexivity|]. js. repeat split.
    + eexists. split; [reflexivity|]. js. repeat split.
  - eexists. split; [reflexivity|]. js. repeat split.
Qed.

(** The archive run of [src/index.ts], observed. *)
Lemma index_ts_archive_run (env : Env) (o r : string) (usesRegex : bool)
    (octokit : Octokit) (release : Release) :
  getRepo (input env "repo") (context env)
  = Normal {| owner := o; repo := r |} ->
  inputs env "file" <> "" ->
  core_getBooleanInput env "regex" false = Normal usesRegex ->
  core_getBooleanInput env "only-source-zip" false = Normal true ->
  getOctokit env (input env "token") (baseUrl_of env) = Normal octokit ->
  rest env octokit (getRelease o r (version_of env)) = Normal release ->
  let path := target_of env in
  let request :=
    IndexTs.request
      (IndexTs.source_parameters path o r (input env "token"))
      (IndexTs.source_endpoint
         (or_else (default "" (zipball_url release)) "")) in
  exists w,
    run (IndexTs.baseFetchFile_resume env) (IndexTs.main env) = (w, Normal tt)
    /\ exchanges w = 1%nat
    /\ fetched (events w) = [(0%nat, request)]
    /\ written (events w) = saved path (network env 0%nat request)
    /\ published (events w) = published (output_events release).
Proof.
  intros Hrepo Hfile Hregex Hzip Hoctokit Hrelease path request.
  unfold run.
  rewrite (index_ts_main_archive env o r usesRegex true octokit release
             Hrepo Hfile Hregex Hzip Hoctokit Hrelease initial eq_refl).
  fold path. fold request.
  rewrite (drain_one _ _
             {| task_parameters :=
                  IndexTs.source_parameters path o r (input env "token");
                task_exchange := 0; task_request := request |})
    by reflexivity.
  unfold IndexTs.baseFetchFile_resume, IndexTs.logged, saved. js.
  destruct (network env 0%nat request) as [response|e]; js.
  - destruct (ok response); js.
    + change (prop _ "outputPath") with (JSString path). js.
      eexists. split; [reflexivity|]. js. repeat split.
    + eexists. split; [reflexivity|]. js. repeat split.
  - eexists. split; [reflexivity|]. js. repeat split.
Qed.

(** In archive mode neither the asset list of the release nor the pattern
    compiler has any part in the run. *)
Lemma archive_run_ignores_assets (env : Env) (o r : string)
    (usesRegex : bool) (octokit : Octokit) (release : Release)
    (l : list Asset) (compiler : string -> Completion Matcher) :
  getRepo (input env "repo") (context env)
  = Normal {| owner := o; repo := r |} ->
  inputs env "file" <> "" ->
  core_getBooleanInput env "regex" false = Normal usesRegex ->
  core_getBooleanInput env "only-source-zip" false = Normal true ->
  getOctokit env (input env "token") (baseUrl_of env) = Normal octokit ->
  rest env octokit (getRelease o r (version_of env)) = Normal release ->
  run (Part000.baseFetchFile_resume (with_assets env l compiler))
    (Part000.main (with_assets env l compiler))
  = run (Part000.baseFetchFile_resume env) (Part000.main env)
  /\ run (IndexTs.baseFetchFile_resume (with_assets env l compiler))
       (IndexTs.main (with_assets env l compiler))
     = run (IndexTs.baseFetchFile_resume env) (IndexTs.main env).
Proof.
  intros Hrepo Hfile Hregex Hzip Hoctokit Hrelease.
  assert (Hrelease' :
            rest (with_assets env l compiler) octokit
              (getRelease o r (version_of (with_assets env l compiler)))
            = Normal {| tag_name := tag_name release;
                        release_name := release_name release;
                        release_body := release_body release;
                        zipball_url := zipball_url release;
                        assets := l |}).
  { unfold with_assets, version_of, input in *. cbn [rest inputs].
    rewrite Hrelease. reflexivity. }
  split; unfold run.
  - rewrite (part_000_main_archive (with_assets env l compiler) o r
               usesRegex true octokit _
               Hrepo Hfile Hregex Hzip Hoctokit Hrelease' initial eq_refl).
    rewrite (part_000_main_archive _ o r usesRegex true octokit _
               Hrepo Hfile Hregex Hzip Hoctokit Hrelease initial eq_refl).
    reflexivity.
  - rewrite (index_ts_main_archive (with_assets env l compiler) o r
               usesRegex true octokit _
               Hrepo Hfile Hregex Hzip Hoctokit Hrelease' initial eq_refl).
    rewrite (index_ts_main_archive _ o r usesRegex true octokit _
               Hrepo Hfile Hregex Hzip Hoctokit Hrelease initial eq_refl).
    reflexivity.
Qed.

(** C2, as amended.  For every run with only-source-zip = true that
    resolves its release, in both source files: main completes having
    started exactly one exchange, a GET against the zipball URL of the
    release (the empty string when the release has none); the asset list of
    the release and the pattern compiler have no part in the run; when the
    response is a success the body is written once, at target + file +
    .zip in src/unnamed/part_000 and at target in src/index.ts, and
    otherwise nothing is written. *)
Theorem archive_mode_spec (env : Env) (o r : string) (usesRegex : bool)
    (octokit : Octokit) (release : Release) :
  getRepo (input env "repo") (context env)
  = Normal {| owner := o; repo := r |} ->
  inputs env "file" <> "" ->
  core_getBooleanInput env "regex" false = Normal usesRegex ->
  core_getBooleanInput env "only-source-zip" false = Normal true ->
  getOctokit env (input env "token") (baseUrl_of env) = Normal octokit ->
  rest env octokit (getRelease o r (version_of env)) = Normal release ->
  let url := or_else (default "" (zipball_url release)) "" in
  (exists w request,
      run (Part000.baseFetchFile_resume env) (Part000.main env)
      = (w, Normal tt)
      /\ exchanges w = 1%nat
      /\ fetched (events w) = [(0%nat, request)]
      /\ req_url request = url /\ req_method request = "GET"
      /\ written (events w)
         = saved (target_of env +:+ input env "file" +:+ ".zip")
             (network env 0%nat request))
  /\ (exists w request,
         run (IndexTs.baseFetchFile_resume env) (IndexTs.main env)
         = (w, Normal tt)
         /\ exchanges w = 1%nat
         /\ fetched (events w) = [(0%nat, request)]
         /\ req_url request = url /\ req_method request = "GET"
         /\ written (events w)
            = saved (target_of env) (network env 0%nat request))
  /\ (forall (l : list Asset) (compiler : string -> Completion Matcher),
         run (Part000.baseFetchFile_resume (with_assets env l compiler))
           (Part000.main (with_assets env l compiler))
         = run (Part000.baseFetchFile_resume env) (Part000.main env)
         /\ run (IndexTs.baseFetchFile_resume (with_assets env l compiler))
              (IndexTs.main (with_assets env l compiler))
            = run (IndexTs.baseFetchFile_resume env) (IndexTs.main env)).
Proof.
  intros Hrepo Hfile Hregex Hzip Hoctokit Hrelease url.
  split; [|split].
  - destruct (part_000_archive_run env o r usesRegex octokit release
                Hrepo Hfile Hregex Hzip Hoctokit Hrelease)
      as (w & Hrun & Hn & Hf & Hw & _).
    exists w. eexists. split; [exact Hrun|]. split; [exact Hn|].
    split; [exact Hf|]. split; [reflexivity|]. split; [reflexivity|].
    exact Hw.
  - destruct (index_ts_archive_run env o r usesRegex octokit release
                Hrepo Hfile Hregex Hzip Hoctokit Hrelease)
      as (w & Hrun & Hn & Hf & Hw & _).
    exists w. eexists. split; [exact Hrun|]. split; [exact Hn|].
    split; [exact Hf|]. split; [reflexivity|]. split; [reflexivity|].
    exact Hw.
  - intros l compiler.
    apply (archive_run_ignores_assets env o r usesRegex octokit release
             l compiler Hrepo Hfile Hregex Hzip Hoctokit Hrelease).
Qed.

(** [archive_mode_spec] on an archive run of the example environment. *)
Lemma archive_mode_spec_witness :
  let env := Demo.env Demo.archive_inputs (Demo.answers 200 "zip") in
  exists w request,
    run (Part000.baseFetchFile_resume env) (Part000.main env) = (w, Normal tt)
    /\ exchanges w = 1%nat
    /\ fetched (events w) = [(0%nat, request)]
    /\ req_url request
       = "https://api.github.com/repos/octo/cat/zipball/v2.0.0"
    /\ req_method request = "GET"
    /\ written (events w) = [("sourcecat.zip", list_byte_of_string "zip")].
Proof.
  intros env.
  destruct (archive_mode_spec env "octo" "cat" false
              {| auth := "t"; baseUrl := None |} Demo.release)
    as [H _].
  - reflexivity.
  - discriminate.
  - reflexivity.
  - reflexivity.
  - reflexivity.
  - reflexivity.
  - exact H.
Defined.

(** C2 as stated fails on [src/index.ts]: with target source and file cat
    the archive is written at source, and nothing is written at
    sourcecat.zip. *)
Lemma archive_path_counterexample :
  let env := Demo.env Demo.archive_inputs (Demo.answers 200 "zip") in
  let w := fst (run (IndexTs.baseFetchFile_resume env) (IndexTs.main env)) in
  written (events w) = [("source", list_byte_of_string "zip")]
  /\ ~ In ("source" +:+ "cat" +:+ ".zip") (map fst (written (events w)))
  /\ files w !! ("source" +:+ "cat" +:+ ".zip") = None.
Proof.
  vm_compute. split; [reflexivity|]. split; [|reflexivity].
  intros [H|[]]. discriminate H.
Qed.

(** ** The default target *)

Lemma launched_inflight (fetchOne : Asset -> World -> World)
    (parameters : Asset -> gmap string JSValue) (l : list Asset) (w : World) :
  (forall a w,
      map task_parameters (inflight (fetchOne a w))
      = map task_parameters (inflight w) ++ [parameters a]) ->
  map task_parameters (inflight (fold_left (fun w a => fetchOne a w) l w))
  = map task_parameters (inflight w) ++ map parameters l.
Proof.
  intros H. revert w. induction l as [|a l IH]; intros w; cbn.
  - rewrite app_nil_r. reflexivity.
  - rewrite IH, H, <- app_assoc. reflexivity.
Qed.

Lemma main_with_default_target (env : Env) (w : World) :
  input env "target" = "" ->
  IndexTs.main env w = IndexTs.main (with_target env (inputs env "file")) w
  /\ Part000.main env w = Part000.main (with_target env (inputs env "file")) w.
Proof.
  intros H.
  unfold IndexTs.main, Part000.main, core_getBooleanInput, core_getInput,
    with_target.
  cbn [inputs context getOctokit rest endpoint network RegExp_new
       String.eqb Ascii.eqb Bool.eqb andb].
  unfold input in H. rewrite H. cbn [String.eqb].
  destruct (String.eqb (inputs env "file") "") eqn:E; split; js;
    cbn [String.eqb]; try reflexivity;
    destruct (String.eqb (trim (inputs env "file")) ""); reflexivity.
Qed.

Lemma index_ts_launch_parameters (env : Env) (octokit : Octokit)
    (usesRegex : bool) (target o r token : string) (l : list Asset)
    (w : World) :
  map task_parameters
    (inflight
       (fold_left
          (fun w a =>
             IndexTs.launch_asset env octokit usesRegex target o r token a w)
          l w))
  = map task_parameters (inflight w)
    ++ map (IndexTs.asset_parameters usesRegex target o r token) l.
Proof.
  apply (launched_inflight
           (IndexTs.launch_asset env octokit usesRegex target o r token)).
  intros a w'. unfold IndexTs.launch_asset, launched. cbn [inflight].
  rewrite map_app. reflexivity.
Qed.

Lemma part_000_launch_parameters (env : Env) (octokit : Octokit)
    (usesRegex : bool) (target o r token : string) (l : list Asset)
    (w : World) :
  map task_parameters
    (inflight
       (fold_left
          (fun w a =>
             Part000.launch_asset env octokit usesRegex target o r token a w)
          l w))
  = map task_parameters (inflight w)
    ++ map (Part000.asset_parameters usesRegex target o r token) l.
Proof.
  apply (launched_inflight
           (Part000.launch_asset env octokit usesRegex target o r token)).
  intros a w'. unfold Part000.launch_asset, launched. cbn [inflight].
  rewrite map_app. reflexivity.
Qed.

(** The output path [main] gives to the download of [asset]. *)
Lemma asset_outputPath (usesRegex : bool) (target o r token : string)
    (asset : Asset) :
  prop (IndexTs.asset_parameters usesRegex target o r token asset)
    "outputPath"
  = JSString (if usesRegex then target +:+ asset_name asset else target)
  /\ prop (Part000.asset_parameters usesRegex target o r token asset)
       "outputPath"
     = JSString (if usesRegex then target +:+ asset_name asset else target).
Proof. split; reflexivity. Qed.

(** C9.  When the input target is empty, the base of the output path is
    the input file: main behaves, in both source files and in both modes,
    as if target had been given the value of file; and in exact mode every
    download main starts has the value of file as its output path. *)
Theorem target_defaults_to_file (env : Env) :
  input env "target" = "" ->
  target_of env = input env "file"
  /\ (forall w : World,
         IndexTs.main env w
         = IndexTs.main (with_target env (inputs env "file")) w
         /\ Part000.main env w
            = Part000.main (with_target env (inputs env "file")) w)
  /\ (forall (o r : string) (octokit : Octokit) (release : Release)
             (matched : list Asset),
         getRepo (input env "repo") (context env)
         = Normal {| owner := o; repo := r |} ->
         inputs env "file" <> "" ->
         core_getBooleanInput env "regex" false = Normal false ->
         core_getBooleanInput env "only-source-zip" false = Normal false ->
         getOctokit env (input env "token") (baseUrl_of env)
         = Normal octokit ->
         rest env octokit (getRelease o r (version_of env))
         = Normal release ->
         Array_filter (filterByFileName (input env "file")) (assets release)
         = Normal matched ->
         matched <> [] ->
         map (fun t => prop (task_parameters t) "outputPath")
           (inflight (fst (IndexTs.main env initial)))
         = map (fun _ => JSString (input env "file")) matched
         /\ map (fun t => prop (task_parameters t) "outputPath")
              (inflight (fst (Part000.main env initial)))
            = map (fun _ => JSString (input env "file")) matched).
Proof.
  intros Htarget.
  assert (Ht : target_of env = input env "file").
  { unfold target_of. rewrite Htarget. reflexivity. }
  split; [exact Ht|]. split.
  - intros w. apply main_with_default_target. exact Htarget.
  - intros o r octokit release matched Hrepo Hfile Hregex Hzip Hoctokit
      Hrelease Hmatched Hne.
    rewrite (index_ts_main_assets env o r false false octokit release
               Hrepo Hfile Hregex Hzip Hoctokit Hrelease matched initial
               eq_refl Hmatched).
    rewrite (part_000_main_assets env o r false false octokit release
               Hrepo Hfile Hregex Hzip Hoctokit Hrelease matched initial
               eq_refl Hmatched).
    destruct matched as [|a l]; [contradiction|].
    cbn [fst after_events inflight].
    rewrite <- !(map_map task_parameters (fun p => prop p "outputPath")).
    rewrite index_ts_launch_parameters, part_000_launch_parameters.
    rewrite Ht. unfold after_events. cbn [inflight initial map app].
    rewrite !map_map.
    split; reflexivity.
Qed.

(** [target_defaults_to_file] on a run by name without target. *)
Lemma target_defaults_to_file_witness :
  let env := Demo.env Demo.name_inputs (Demo.answers 200 "sums") in
  map (fun t => prop (task_parameters t) "outputPath")
    (inflight (fst (IndexTs.main env initial)))
  = [JSString "checksums.txt"]
  /\ Part000.main env initial
     = Part000.main (with_target env "checksums.txt") initial.
Proof.
  intros env.
  destruct (target_defaults_to_file env eq_refl) as (_ & Hmain & Hpath).
  split.
  - refine (proj1 (Hpath "octo" "cat" Demo.octokit Demo.release
                     [ {| asset_id := 13; asset_name := "checksums.txt" |} ]
                     _ _ _ _ _ _ _ _));
      try reflexivity; discriminate.
  - apply (Hmain initial).
Defined.

(** ** Retrying *)

Lemma index_ts_resume_keeps_exchanges (env : Env) (t : Task) (w : World) :
  exchanges (fst (IndexTs.baseFetchFile_resume env t w)) = exchanges w.
Proof.
  unfold IndexTs.baseFetchFile_resume.
  destruct (network env (task_exchange t) (task_request t)) as [response|e];
    js; [|reflexivity].
  destruct (ok response); js; [|reflexivity].
  destruct (prop (task_parameters t) "outputPath"); js; reflexivity.
Qed.

Lemma part_000_resume_keeps_exchanges (env : Env) (t : Task) (w : World) :
  exchanges (fst (Part000.baseFetchFile_resume env t w)) = exchanges w.
Proof.
  unfold Part000.baseFetchFile_resume.
  destruct (network env (task_exchange t) (task_request t)) as [response|e];
    js; [|reflexivity].
  destruct (ok response); js; [|reflexivity].
  destruct (prop (task_parameters t) "outputPath"); js; reflexivity.
Qed.

(** The event loop starts no exchange, as long as resuming a call starts
    none. *)
Lemma drain_keeps_exchanges (resume : Task -> M unit) (w : World) :
  (forall t w, exchanges (fst (resume t w)) = exchanges w) ->
  exchanges (drain resume w) = exchanges w.
Proof.
  intros H. unfold drain.
  change (exchanges w) with (exchanges (clear_inflight w)).
  generalize (clear_inflight w) as w0. generalize (inflight w) as l.
  induction l as [|t l IH]; intros w0; cbn; [reflexivity|].
  rewrite IH. specialize (H t w0).
  destruct (resume t w0) as [w1 [v|e]]; exact H.
Qed.

(** The model of [retry] does retry: a callback that hands back the promise
    of its call, with the options passed, makes one attempt and five
    retries against a server that always fails, waits longer each time and
    rejects in the end. *)
Example retry_retries_rejections :
  let env := Demo.env [] (Demo.answers 503 "unavailable") in
  let parameters : gmap string JSValue :=
    list_to_map [("outputPath", JSString "app.zip"); ("token", JSString "t")]
  in
  let attempted :=
    retry (IndexTs.baseFetchFile_resume env)
      (fun _ =>
         t <- IndexTs.baseFetchFile parameters
                (IndexTs.source_endpoint "https://example.org/app.zip") ;;
         ret (Promise t))
      (Some handed_back) initial in
  snd attempted = Throw (Error "Invalid response")
  /\ exchanges (fst attempted) = 6%nat
  /\ slept (events (fst attempted)) = [1000; 2000; 4000; 8000; 16000]%N.
Proof. vm_compute. repeat split. Qed.

(** C1 does not hold of the code.  In both source files, whatever the
    server answers, fetchAssetFile and fetchSourceFile start exactly one
    exchange, wait for no delay and resolve with the object their callback
    handed back.  With a server that always answers 503 nothing is retried
    and nothing is raised: the failure of the single attempt stays an
    unhandled rejection.  With a server whose second answer would be a
    success, the single attempt fails and nothing is written. *)
Theorem fetchers_attempt_once :
  (forall (env : Env) (octokit : Octokit) (parameters : gmap string JSValue)
          (url outputPath token : string),
      (exists w,
          run (IndexTs.baseFetchFile_resume env)
            (IndexTs.fetchAssetFile env octokit parameters)
          = (w, Normal (Some handed_back)) /\ exchanges w = 1%nat)
      /\ (exists w,
             run (IndexTs.baseFetchFile_resume env)
               (IndexTs.fetchSourceFile env parameters url)
             = (w, Normal (Some handed_back)) /\ exchanges w = 1%nat)
      /\ (exists w,
             run (Part000.baseFetchFile_resume env)
               (Part000.fetchAssetFile env octokit parameters)
             = (w, Normal (Some handed_back)) /\ exchanges w = 1%nat)
      /\ (exists w,
             run (Part000.baseFetchFile_resume env)
               (Part000.fetchSourceFile env url outputPath token)
             = (w, Normal (Some handed_back)) /\ exchanges w = 1%nat))
  /\ (let env := Demo.env [] (Demo.answers 503 "unavailable") in
      let parameters :=
        IndexTs.asset_parameters false "app.zip" "octo" "cat" "t"
          {| asset_id := 11; asset_name := "app.zip" |} in
      let w1 :=
        fst (run (IndexTs.baseFetchFile_resume env)
               (IndexTs.fetchAssetFile env Demo.octokit parameters)) in
      let w2 :=
        fst (run (Part000.baseFetchFile_resume env)
               (Part000.fetchAssetFile env Demo.octokit parameters)) in
      (exchanges w1 = 1%nat /\ slept (events w1) = []
       /\ unhandled w1 = [Error "Invalid response"]
       /\ written (events w1) = [])
      /\ (exchanges w2 = 1%nat /\ slept (events w2) = []
          /\ unhandled w2 = [Error "Invalid response"]
          /\ written (events w2) = []))
  /\ (let env := Demo.env [] (Demo.succeeds_from 1 "data") in
      let parameters :=
        IndexTs.asset_parameters false "app.zip" "octo" "cat" "t"
          {| asset_id := 11; asset_name := "app.zip" |} in
      let w1 :=
        fst (run (IndexTs.baseFetchFile_resume env)
               (IndexTs.fetchAssetFile env Demo.octokit parameters)) in
      let w2 :=
        fst (run (Part000.baseFetchFile_resume env)
               (Part000.fetchAssetFile env Demo.octokit parameters)) in
      (exchanges w1 = 1%nat /\ written (events w1) = [])
      /\ (exchanges w2 = 1%nat /\ written (events w2) = [])).
Proof.
  split; [|split; vm_compute; repeat split].
  intros env octokit parameters url outputPath token.
  unfold run.
  rewrite index_ts_fetchAssetFile, index_ts_fetchSourceFile,
    part_000_fetchAssetFile, part_000_fetchSourceFile.
  repeat split; eexists; (split; [reflexivity|]);
    rewrite drain_keeps_exchanges;
    auto using index_ts_resume_keeps_exchanges,
      part_000_resume_keeps_exchanges.
Qed.

(** ** Asset mode *)

Lemma launch_all_exchanges (step : Asset -> World -> World) (l : list Asset)
    (w : World) :
  (forall a w, exchanges (step a w) = S (exchanges w)) ->
  exchanges (fold_left (fun w a => step a w) l w)
  = (exchanges w + List.length l)%nat.
Proof.
  intros H. revert w. induction l as [|a l IH]; intros w; cbn.
  - lia.
  - rewrite IH, H. lia.
Qed.

(** What holds of asset mode in both source files: without a match main
    throws before any exchange is started; with matches it starts one
    exchange per matched asset, in the order of the list, each with the
    output path target (exact mode) or target followed by the name of the
    asset (pattern mode), and completes. *)
Lemma asset_mode_starts_in_order (env : Env) (o r : string)
    (usesRegex : bool) (octokit : Octokit) (release : Release)
    (matched : list Asset) :
  getRepo (input env "repo") (context env)
  = Normal {| owner := o; repo := r |} ->
  inputs env "file" <> "" ->
  core_getBooleanInput env "regex" false = Normal usesRegex ->
  core_getBooleanInput env "only-source-zip" false = Normal false ->
  getOctokit env (input env "token") (baseUrl_of env) = Normal octokit ->
  rest env octokit (getRelease o r (version_of env)) = Normal release ->
  Array_filter (assetFilterFn env usesRegex (input env "file"))
    (assets release) = Normal matched ->
  let path (a : Asset) :=
    JSString (if usesRegex then target_of env +:+ asset_name a
              else target_of env) in
  (matched = [] ->
   snd (IndexTs.main env initial) = Throw (Error "Could not find asset id")
   /\ exchanges (fst (IndexTs.main env initial)) = 0%nat
   /\ snd (Part000.main env initial) = Throw (Error "Could not find asset id")
   /\ exchanges (fst (Part000.main env initial)) = 0%nat)
  /\ (matched <> [] ->
      snd (IndexTs.main env initial) = Normal tt
      /\ exchanges (fst (IndexTs.main env initial)) = List.length matched
      /\ map (fun t => prop (task_parameters t) "outputPath")
           (inflight (fst (IndexTs.main env initial)))
         = map path matched
      /\ snd (Part000.main env initial) = Normal tt
      /\ exchanges (fst (Part000.main env initial)) = List.length matched
      /\ map (fun t => prop (task_parameters t) "outputPath")
           (inflight (fst (Part000.main env initial)))
         = map path matched).
Proof.
  intros Hrepo Hfile Hregex Hzip Hoctokit Hrelease Hmatched path.
  rewrite (index_ts_main_assets env o r usesRegex false octokit release
             Hrepo Hfile Hregex Hzip Hoctokit Hrelease matched initial
             eq_refl Hmatched).
  rewrite (part_000_main_assets env o r usesRegex false octokit release
             Hrepo Hfile Hregex Hzip Hoctokit Hrelease matched initial
             eq_refl Hmatched).
  split.
  - intros ->. repeat split.
  - intros Hne. destruct matched as [|a l]; [contradiction|].
    cbn [fst snd after_events inflight exchanges].
    rewrite <- !(map_map task_parameters (fun p => prop p "outputPath")).
    rewrite index_ts_launch_parameters, part_000_launch_parameters.
    rewrite !launch_all_exchanges by reflexivity.
    unfold after_events. cbn [inflight exchanges initial map app].
    rewrite !map_map. repeat split.
Qed.

(** C6 does not hold of the code: the downloads are started in the order
    of the list, with the paths the claim gives, but none is waited for.
    On a release with two assets matched by the pattern, in both source
    files, when the promise of main settles both exchanges are started, the
    outputs are published and no body is written; the bodies are written
    afterwards, when the event loop resumes the dropped calls. *)
Theorem asset_downloads_are_not_awaited :
  let env := Demo.env Demo.pattern_inputs (Demo.answers 200 "data") in
  let outputs :=
    [("version", OutString "v2.0.0"); ("name", OutString "Two");
     ("body", OutString "notes")] in
  (let settled := IndexTs.main env initial in
   let final := drain (IndexTs.baseFetchFile_resume env) (fst settled) in
   snd settled = Normal tt
   /\ map fst (fetched (events (fst settled))) = [0; 1]%nat
   /\ written (events (fst settled)) = []
   /\ published (events (fst settled)) = outputs
   /\ map fst (written (events final))
      = ["dist/cat-linux.tar.gz"; "dist/cat-macos.tar.gz"])
  /\ (let settled := Part000.main env initial in
      let final := drain (Part000.baseFetchFile_resume env) (fst settled) in
      snd settled = Normal tt
      /\ map fst (fetched (events (fst settled))) = [0; 1]%nat
      /\ written (events (fst settled)) = []
      /\ published (events (fst settled)) = outputs
      /\ map fst (written (events final))
         = ["dist/cat-linux.tar.gz"; "dist/cat-macos.tar.gz"]).
Proof. vm_compute. repeat split. Qed.

(** ** Failures of a download *)


(** * Further properties *)

(** ** getRepo on any input *)

Lemma after_None (sep : ascii) (s : string) :
  after sep s = None <-> occurs sep s = false.
Proof.
  induction s as [|c s IH]; cbn; [tauto|].
  destruct (Ascii.eqb c sep); cbn; [split; discriminate | exact IH].
Qed.

Lemma before_after (sep : ascii) (s t : string) :
  after sep s = Some t ->
  s = before sep s +:+ String sep t /\ occurs sep (before sep s) = false.
Proof.
  induction s as [|c s IH]; cbn; [discriminate|].
  destruct (Ascii.eqb_spec c sep) as [->|Hne].
  - intros [= ->]. split; reflexivity.
  - intros H. destruct (IH H) as [Heq Hocc]. rewrite append_cons, <- Heq.
    split; [reflexivity|]. cbn. apply Ascii.eqb_neq in Hne. rewrite Hne.
    exact Hocc.
Qed.

Lemma before_without_separator (sep : ascii) (s : string) :
  occurs sep s = false -> before sep s = s.
Proof.
  induction s as [|c s IH]; cbn; [reflexivity|].
  intros H. apply orb_false_iff in H as [Hc Hs]. rewrite Hc, (IH Hs).
  reflexivity.
Qed.

Lemma before_has_no_separator (sep : ascii) (s : string) :
  occurs sep (before sep s) = false.
Proof.
  induction s as [|c s IH]; cbn; [reflexivity|].
  destruct (Ascii.eqb c sep) eqn:E; cbn; [reflexivity|]. rewrite E. exact IH.
Qed.

(** The first piece of a split is the text before the first separator. *)
Lemma split_head (sep : ascii) (s : string) :
  exists pieces, split sep s = before sep s :: pieces.
Proof.
  induction s as [|c s IH]; cbn; [eexists; reflexivity|].
  destruct (Ascii.eqb c sep); [eexists; reflexivity|].
  destruct IH as [pieces ->]. eexists; reflexivity.
Qed.

Lemma split_after (sep : ascii) (s t : string) :
  after sep s = Some t -> split sep s = before sep s :: split sep t.
Proof.
  intros H. destruct (before_after _ _ _ H) as [Heq Hocc].
  rewrite Heq at 1. apply split_at_first_separator. exact Hocc.
Qed.

Lemma getRepo_with_slash (s t : string) (context : Context) :
  after "/" s = Some t ->
  getRepo s context
  = Normal {| owner := before "/" s; repo := before "/" t |}.
Proof.
  intros Ht. unfold getRepo.
  destruct s as [|c s']; [discriminate|]. cbn [String.eqb].
  rewrite (split_after _ _ _ Ht).
  destruct (split_head "/" t) as [pieces ->]. reflexivity.
Qed.

Lemma getRepo_without_slash (s : string) (context : Context) :
  s <> "" -> occurs "/" s = false ->
  getRepo s context = Throw (Error "Malformed repo").
Proof.
  intros Hne Hocc. unfold getRepo. apply String.eqb_neq in Hne.
  rewrite Hne, (split_without_separator _ _ Hocc). reflexivity.
Qed.

(** X1.  getRepo on any input that holds a slash: it never throws, even
    when a half is empty; the owner is the text before the first slash, the
    repo the text between the first slash and the second (or the end), and
    whatever follows a second slash is ignored.  It throws, and then always
    Malformed repo, exactly on the non-empty inputs without a slash. *)
Theorem getRepo_on_any_input (s : string) (context : Context) :
  (forall t : string,
      after "/" s = Some t ->
      getRepo s context
      = Normal {| owner := before "/" s; repo := before "/" t |})
  /\ (getRepo s context = Throw (Error "Malformed repo")
      <-> s <> "" /\ occurs "/" s = false)
  /\ (forall e : JSError,
         getRepo s context = Throw e -> e = Error "Malformed repo").
Proof.
  pose proof (fun t => getRepo_with_slash s t context) as Hslash.
  pose proof (getRepo_without_slash s context) as Hbad.
  split; [exact Hslash|]. split.
  - split.
    + intros H. destruct s as [|c s']; [discriminate|].
      split; [discriminate|].
      destruct (after "/" (String c s')) as [t|] eqn:E.
      * rewrite (Hslash t eq_refl) in H. discriminate.
      * apply after_None. exact E.
    + intros [Hne Hocc]. apply Hbad; assumption.
  - intros e H. destruct s as [|c s']; [discriminate|].
    destruct (after "/" (String c s')) as [t|] eqn:E.
    + rewrite (Hslash t eq_refl) in H. discriminate.
    + apply after_None in E.
      rewrite Hbad in H by (try discriminate; exact E).
      congruence.
Qed.

(** [getRepo_on_any_input] on an input with three pieces and on a lone
    slash. *)
Lemma getRepo_on_any_input_witness :
  getRepo "octo/cat/extra" {| context_repo := {| owner := "a"; repo := "b" |} |}
  = Normal {| owner := "octo"; repo := "cat" |}
  /\ getRepo "/" {| context_repo := {| owner := "a"; repo := "b" |} |}
     = Normal {| owner := ""; repo := "" |}.
Proof.
  split.
  - apply (proj1 (getRepo_on_any_input "octo/cat/extra" _) "cat/extra").
    reflexivity.
  - apply (proj1 (getRepo_on_any_input "/" _) ""). reflexivity.
Defined.

(** X2.  What getRepo returns for a non-empty input joins back to the
    input: owner and repo hold no slash and the input is owner/repo, or
    owner/repo/ followed by more text. *)
Theorem getRepo_joins_back (s : string) (context : Context) (o r : string) :
  s <> "" ->
  getRepo s context = Normal {| owner := o; repo := r |} ->
  occurs "/" o = false /\ occurs "/" r = false
  /\ (s = o +:+ "/" +:+ r
      \/ exists more : string, s = o +:+ "/" +:+ r +:+ "/" +:+ more).
Proof.
  intros Hne H.
  destruct (after "/" s) as [t|] eqn:Et.
  - rewrite (getRepo_with_slash s t context Et) in H.
    injection H as <- <-.
    destruct (before_after _ _ _ Et) as [Hs _].
    split; [apply before_has_no_separator|].
    split; [apply before_has_no_separator|].
    destruct (after "/" t) as [more|] eqn:Em.
    + right. exists more. destruct (before_after _ _ _ Em) as [Ht _].
      rewrite Hs at 1. rewrite Ht at 1. reflexivity.
    + left. apply after_None in Em.
      rewrite (before_without_separator _ _ Em). exact Hs.
  - apply after_None in Et. exfalso.
    rewrite (getRepo_without_slash s context Hne Et) in H. discriminate.
Qed.

(** [getRepo_joins_back] on an input with three pieces. *)
Lemma getRepo_joins_back_witness :
  occurs "/" "octo" = false /\ occurs "/" "cat" = false
  /\ ("octo/cat/extra" = "octo" +:+ "/" +:+ "cat"
      \/ exists more : string,
           "octo/cat/extra" = "octo" +:+ "/" +:+ "cat" +:+ "/" +:+ more).
Proof.
  apply (getRepo_joins_back "octo/cat/extra"
           {| context_repo := {| owner := "a"; repo := "b" |} |}).
  - discriminate.
  - reflexivity.
Defined.

(** ** getRelease read backwards *)

(** X3.  The request getRelease builds tells the form of the descriptor:
    the latest release is asked for only on the descriptor latest; a
    release by tag only on tags/ followed by that tag, which is then not
    empty and has no line terminator; a release by id only on a descriptor
    of neither form, with the truncated number of the descriptor as id.
    Owner and repo are passed on unchanged. *)
Theorem getRelease_inversion (owner repo version : string) :
  (forall o r : string,
      getRelease owner repo version = repos_getLatestRelease o r ->
      version = "latest" /\ o = owner /\ r = repo)
  /\ (forall o r tag : string,
         getRelease owner repo version = repos_getReleaseByTag o r tag ->
         version = "tags/" +:+ tag /\ tag <> ""
         /\ hasLineTerminator tag = false /\ o = owner /\ r = repo)
  /\ (forall (o r : string) (id : JSNumber),
         getRelease owner repo version = repos_getRelease o r id ->
         id = Math_trunc (Number version) /\ version <> "latest"
         /\ (forall tag : string,
                tag <> "" -> hasLineTerminator tag = false ->
                version <> "tags/" +:+ tag)
         /\ o = owner /\ r = repo).
Proof.
  unfold getRelease.
  destruct (String.eqb_spec version "latest") as [Hl|Hl].
  - repeat split; try discriminate. all: congruence.
  - destruct (match_tags version) as [matched|] eqn:E.
    + apply match_tags_Some in E as (rest & Hv & Hlt & ->).
      unfold truthy_at. cbn [lookup list_lookup default from_option id].
      destruct (String.eqb_spec rest "") as [->|Hne]; cbn [negb].
      * split; [discriminate|]. split; [discriminate|].
        intros o r id [= <- <- <-]. repeat split; try assumption.
        intros tag Htag _ Heq. rewrite Hv in Heq.
        apply (f_equal (stripPrefix "tags/")) in Heq.
        rewrite !stripPrefix_append in Heq. congruence.
      * split; [discriminate|]. split; [|discriminate].
        intros o r tag [= <- <- <-]. repeat split; assumption.
    + split; [discriminate|]. split; [discriminate|].
      intros o r id [= <- <- <-]. repeat split; try assumption.
      intros tag Htag Hlt Heq. rewrite Heq, (match_tags_tag _ Hlt) in E.
      discriminate.
Qed.

(** [getRelease_inversion] read on the descriptors latest and tags/v1. *)
Lemma getRelease_inversion_witness :
  "latest" = "latest" /\ "tags/v1" = "tags/" +:+ "v1".
Proof.
  split.
  - apply (proj1 (getRelease_inversion "o" "r" "latest") "o" "r").
    reflexivity.
  - apply (proj1 (proj2 (getRelease_inversion "o" "r" "tags/v1"))
             "o" "r" "v1").
    reflexivity.
Defined.

(** ** Release ids written in decimal *)

Lemma ctz_scaled (v q : positive) :
  ctz (v * 2 ^ q) = (ctz v + Npos q)%N.
Proof.
  induction q as [|q IH] using Pos.peano_ind.
  - change (2 ^ 1)%positive with 2%positive.
    rewrite Pos.mul_xO_r, Pos.mul_1_r. cbn [ctz]. lia.
  - rewrite Pos.pow_succ_r.
    change (2 * 2 ^ q)%positive with ((2 ^ q)~0)%positive.
    rewrite Pos.mul_xO_r. cbn [ctz]. rewrite IH. lia.
Qed.

(** A positive integer scaled up by a power of two and scaled down by the
    same exponent is that integer, as a double in lowest terms. *)
Lemma dyadic_scaled (negative : bool) (v : positive) (j : N) :
  dyadic negative (Zpos v * 2 ^ Z.of_N j) (- Z.of_N j)
  = Finite negative (Npos v) 0.
Proof.
  destruct j as [|q].
  - change (Z.of_N 0) with 0%Z. change (- 0)%Z with 0%Z.
    rewrite Z.pow_0_r, Z.mul_1_r. unfold dyadic.
    change (0 <=? 0)%Z with true. rewrite Z.pow_0_r, Z.mul_1_r.
    reflexivity.
  - change (Z.of_N (N.pos q)) with (Z.pos q).
    rewrite <- Pos2Z.inj_pow, <- Pos2Z.inj_mul.
    unfold dyadic. change (- Z.pos q)%Z with (Z.neg q).
    change (0 <=? Z.neg q)%Z with false.
    change (Z.to_N (- Z.neg q)) with (N.pos q).
    rewrite ctz_scaled.
    replace (N.min (ctz v + N.pos q) (N.pos q)) with (N.pos q) by lia.
    rewrite N.sub_diag. f_equal.
    change (N.pos (v * 2 ^ q)) with (N.pos v * N.pos (2 ^ q))%N.
    replace (N.pos (2 ^ q)) with (2 ^ N.pos q)%N by reflexivity.
    rewrite <- N.shiftl_mul_pow2, N.shiftr_shiftl_r by lia.
    rewrite N.sub_diag. reflexivity.
Qed.

Lemma round_half_even_whole (x : Z) : round_half_even x 1 = x.
Proof.
  unfold round_half_even. rewrite Z.div_1_r, Z.mod_1_r. reflexivity.
Qed.

(** An integer below [2^53] is a double: [toDouble] does not round it. *)
Lemma toDouble_exact (negative : bool) (v : N) :
  (v < 2 ^ 53)%N -> toDouble negative (Z.of_N v) 1 = Finite negative v 0.
Proof.
  intros Hlt. destruct v as [|p]; [reflexivity|].
  unfold toDouble. cbn [Z.of_N Z.eqb].
  assert (Hpos : (0 < Zpos p)%Z) by lia.
  assert (Hp53 : (Zpos p < 2 ^ 53)%Z).
  { change (2 ^ 53)%Z with (Z.of_N (2 ^ 53)). lia. }
  pose proof (Z.log2_spec _ Hpos) as [Hlow _].
  pose proof (Z.log2_nonneg (Zpos p)) as Hnonneg.
  pose proof (proj1 (Z.log2_lt_pow2 _ 53 Hpos) Hp53) as Hlog.
  unfold floor_log2_ratio. rewrite Z.log2_1, Z.sub_0_r.
  destruct (Z.leb_spec 0 (Z.log2 (Zpos p))) as [_|]; [|lia].
  rewrite Z.mul_1_l.
  destruct (Z.leb_spec (2 ^ Z.log2 (Zpos p)) (Zpos p)) as [_|]; [|lia].
  set (e := Z.log2 (Zpos p)) in *.
  replace (Z.max (e - 52) (-1074)) with (e - 52)%Z by lia.
  destruct (Z.ltb_spec 971 (e - 52)) as [|_]; [lia|].
  destruct (Z.eqb_spec (e - 52) 971) as [|_]; [lia|]. cbn [andb].
  destruct (Z.leb_spec 0 (e - 52)) as [Hge|Hneg].
  - replace (e - 52)%Z with 0%Z by lia.
    rewrite Z.pow_0_r, Z.mul_1_l, round_half_even_whole.
    pose proof (dyadic_scaled negative p 0) as H.
    change (Z.of_N 0) with 0%Z in H. change (- 0)%Z with 0%Z in H.
    rewrite Z.pow_0_r, Z.mul_1_r in H. exact H.
  - rewrite round_half_even_whole.
    assert (Hj : (e - 52 = - Z.of_N (Z.to_N (52 - e)))%Z) by lia.
    rewrite Hj, Z.opp_involutive. apply dyadic_scaled.
Qed.

Lemma digit_not_space (c : ascii) :
  isDecimalDigit c = true -> isStrWhiteSpaceChar c = false.
Proof.
  destruct c as [[] [] [] [] [] [] [] []]; try discriminate; reflexivity.
Qed.

Lemma digit_value (c : ascii) :
  isDecimalDigit c = true -> digitValue 10 c = Some (N_of_ascii c - 48)%N.
Proof.
  destruct c as [[] [] [] [] [] [] [] []]; try discriminate; reflexivity.
Qed.

Lemma trimEnd_digits (s : string) : allDigits s = true -> trimEnd s = s.
Proof.
  induction s as [|c s IH]; cbn; [reflexivity|].
  intros H. apply andb_true_iff in H as [Hc Hs].
  rewrite (IH Hs), (digit_not_space _ Hc). destruct s; reflexivity.
Qed.

Lemma trim_digits (s : string) : allDigits s = true -> trim s = s.
Proof.
  intros H. unfold trim. destruct s as [|c s]; [reflexivity|].
  cbn [trimStart]. pose proof H as H'. cbn in H'.
  apply andb_true_iff in H' as [Hc _].
  rewrite (digit_not_space _ Hc). apply trimEnd_digits. exact H.
Qed.

Lemma digits_all (s : string) (acc count : N) :
  allDigits s = true ->
  digits 10 s acc count
  = (decimalValue s acc, (count + N.of_nat (String.length s))%N, "").
Proof.
  revert acc count. induction s as [|c s IH]; intros acc count; cbn.
  - intros _. rewrite N.add_0_r. reflexivity.
  - intros H. apply andb_true_iff in H as [Hc Hs].
    rewrite (digit_value _ Hc), (IH _ _ Hs). f_equal. f_equal. lia.
Qed.

Lemma NonDecimalIntegerLiteral_digits (s : string) :
  allDigits s = true -> NonDecimalIntegerLiteral s = None.
Proof.
  destruct s as [|c [|p rest]].
  - reflexivity.
  - intros _. destruct c as [[] [] [] [] [] [] [] []]; reflexivity.
  - cbn [allDigits]. intros H.
    apply andb_true_iff in H as [_ H]. apply andb_true_iff in H as [Hp _].
    destruct c as [[] [] [] [] [] [] [] []]; try reflexivity.
    destruct p as [[] [] [] [] [] [] [] []]; try discriminate; reflexivity.
Qed.

(** [Number] reads a string of decimal digits whose value is below [2^53]
    without rounding. *)
Lemma Number_of_digits (s : string) :
  s <> "" -> allDigits s = true -> (decimalValue s 0 < 2 ^ 53)%N ->
  Number s = Finite false (decimalValue s 0) 0.
Proof.
  intros Hne Hd Hlt. unfold Number, StringToNumber.
  rewrite (trim_digits _ Hd), (NonDecimalIntegerLiteral_digits _ Hd).
  apply String.eqb_neq in Hne. rewrite Hne.
  assert (Hu : StrUnsignedDecimalLiteral false s
               = Finite false (decimalValue s 0) 0).
  { unfold StrUnsignedDecimalLiteral. rewrite (digits_all _ _ _ Hd).
    destruct s as [|c rest]; [discriminate|].
    assert (HI : String.eqb (String c rest) "Infinity" = false).
    { cbn in Hd. apply andb_true_iff in Hd as [Hc _].
      destruct c as [[] [] [] [] [] [] [] []]; try discriminate;
        reflexivity. }
    rewrite HI.
    replace ((0 + N.of_nat (String.length (String c rest)) =? 0)%N)
      with false by (symmetry; apply N.eqb_neq; cbn; lia).
    cbn [andb ExponentPart].
    change (0 - Z.of_N 0)%Z with 0%Z. change (0 <=? 0)%Z with true.
    cbv iota. rewrite N.pow_0_r, N.mul_1_r, N.add_0_r.
    rewrite Z.pow_0_r, Z.mul_1_r. apply toDouble_exact. exact Hlt. }
  destruct s as [|c rest]; [discriminate|].
  cbn in Hd. apply andb_true_iff in Hd as [Hc _].
  destruct c as [[] [] [] [] [] [] [] []]; try discriminate; exact Hu.
Qed.

(** X4.  A descriptor made of decimal digits whose value is below 2^53 is
    taken as that release id, exactly: leading zeros do not matter and
    nothing is rounded. *)
Theorem getRelease_decimal_id (owner repo s : string) :
  s <> "" -> allDigits s = true -> (decimalValue s 0 < 2 ^ 53)%N ->
  getRelease owner repo s
  = repos_getRelease owner repo (integer (Z.of_N (decimalValue s 0))).
Proof.
  intros Hne Hd Hlt. unfold getRelease.
  rewrite (Number_of_digits s Hne Hd Hlt).
  assert (Hid : Math_trunc (Finite false (decimalValue s 0) 0)
                = integer (Z.of_N (decimalValue s 0))).
  { unfold Math_trunc, integer. rewrite N.shiftr_0_r, Zabs2N.id.
    destruct (Z.ltb_spec (Z.of_N (decimalValue s 0)) 0); [lia|reflexivity]. }
  rewrite Hid.
  destruct s as [|c rest]; [contradiction|].
  cbn in Hd. apply andb_true_iff in Hd as [Hc _].
  destruct c as [[] [] [] [] [] [] [] []]; try discriminate; reflexivity.
Qed.

(** [getRelease_decimal_id] on the descriptor 0012345; above [2^53] an id
    can be rounded, as on 9007199254740993. *)
Lemma getRelease_decimal_id_witness :
  getRelease "o" "r" "0012345" = repos_getRelease "o" "r" (integer 12345)
  /\ getRelease "o" "r" "9007199254740993"
     = repos_getRelease "o" "r" (integer 9007199254740992).
Proof.
  split.
  - apply (getRelease_decimal_id "o" "r" "0012345");
      [discriminate | reflexivity | reflexivity].
  - vm_compute. reflexivity.
Defined.

(** ** More on one attempt *)

(** X5.  An attempt whose exchange itself fails, in either source file,
    rejects with the error of the exchange: it reads no body, logs nothing
    after its request and leaves the files and the directories as they
    were. *)
Theorem attempt_on_network_failure (env : Env)
    (parameters : gmap string JSValue) (eo : EndpointOptions) (w : World)
    (e : JSError) :
  (network env (exchanges w) (IndexTs.request parameters eo) = Failed e ->
   let w' := fst (IndexTs.attempt env parameters eo w) in
   snd (IndexTs.attempt env parameters eo w) = Throw e
   /\ events w'
      = events w ++ IndexTs.logged eo
        ++ [Fetch (exchanges w) (IndexTs.request parameters eo)]
   /\ files w' = files w /\ directories w' = directories w)
  /\ (network env (exchanges w) (Part000.request parameters eo) = Failed e ->
      let w' := fst (Part000.attempt env parameters eo w) in
      snd (Part000.attempt env parameters eo w) = Throw e
      /\ events w'
         = events w ++ [Fetch (exchanges w) (Part000.request parameters eo)]
      /\ files w' = files w /\ directories w' = directories w).
Proof.
  split; intros Hnet.
  - unfold IndexTs.attempt, IndexTs.baseFetchFile,
      IndexTs.baseFetchFile_resume, IndexTs.logged. js.
    fold (IndexTs.request parameters eo). rewrite Hnet. js.
    repeat split. rewrite <- app_assoc. reflexivity.
  - unfold Part000.attempt, Part000.baseFetchFile,
      Part000.baseFetchFile_resume. js.
    fold (Part000.request parameters eo). rewrite Hnet. js.
    repeat split.
Qed.

(** [attempt_on_network_failure] on a network where every exchange fails. *)
Lemma attempt_on_network_failure_witness :
  let env := Demo.env [] no_network in
  let parameters : gmap string JSValue :=
    list_to_map [("outputPath", JSString "dist/app.zip");
                 ("token", JSString "t")] in
  let eo :=
    {| eo_method := "GET"; eo_url := "https://example.org/app.zip";
       eo_headers := None; eo_body := None |} in
  snd (IndexTs.attempt env parameters eo initial)
  = Throw (TypeError "fetch failed")
  /\ files (fst (Part000.attempt env parameters eo initial)) = ∅.
Proof.
  intros env parameters eo.
  destruct (attempt_on_network_failure env parameters eo initial
              (TypeError "fetch failed")) as [H1 H2].
  split.
  - apply (H1 eq_refl).
  - apply (H2 eq_refl).
Defined.

(** X6.  Whatever the server answers and whatever the parameters hold, an
    attempt starts exactly one exchange, removes no file, changes no file
    other than the one at its output path, removes no directory, and
    leaves the suspended calls and the unhandled rejections as they
    were. *)
Theorem attempt_frame (env : Env) (parameters : gmap string JSValue)
    (eo : EndpointOptions) (w : World) :
  let frame (w' : World) :=
    exchanges w' = S (exchanges w)
    /\ directories w ⊆ directories w'
    /\ (forall q : string,
           prop parameters "outputPath" <> JSString q ->
           files w' !! q = files w !! q)
    /\ (forall q : string,
           is_Some (files w !! q) -> is_Some (files w' !! q))
    /\ inflight w' = inflight w /\ unhandled w' = unhandled w in
  frame (fst (IndexTs.attempt env parameters eo w))
  /\ frame (fst (Part000.attempt env parameters eo w)).
Proof.
  cbv zeta. split.
  - unfold IndexTs.attempt, IndexTs.baseFetchFile,
      IndexTs.baseFetchFile_resume. js.
    destruct (network env _ _) as [response|e]; js;
      [|repeat split; auto; set_solver].
    destruct (ok response); js; [|repeat split; auto; set_solver].
    destruct (prop parameters "outputPath") as [|p|z] eqn:Hp; js;
      try (repeat split; auto; set_solver).
    repeat split; auto; try set_solver.
    + intros q Hq. apply lookup_insert_ne. congruence.
    + intros q Hq. destruct (decide (p = q)) as [->|Hne].
      * rewrite lookup_insert_eq. eauto.
      * rewrite lookup_insert_ne by exact Hne. exact Hq.
  - unfold Part000.attempt, Part000.baseFetchFile,
      Part000.baseFetchFile_resume. js.
    destruct (network env _ _) as [response|e]; js;
      [|repeat split; auto; set_solver].
    destruct (ok response); js; [|repeat split; auto; set_solver].
    destruct (prop parameters "outputPath") as [|p|z] eqn:Hp; js;
      try (repeat split; auto; set_solver).
    repeat split; auto; try set_solver.
    + intros q Hq. apply lookup_insert_ne. congruence.
    + intros q Hq. destruct (decide (p = q)) as [->|Hne].
      * rewrite lookup_insert_eq. eauto.
      * rewrite lookup_insert_ne by exact Hne. exact Hq.
Qed.

(** [attempt_frame] on an attempt answered 200, read at another path. *)
Lemma attempt_frame_witness :
  let env := Demo.env [] (Demo.answers 200 "data") in
  let parameters : gmap string JSValue :=
    list_to_map [("outputPath", JSString "dist/app.zip");
                 ("token", JSString "t")] in
  let eo :=
    {| eo_method := "GET"; eo_url := "https://example.org/app.zip";
       eo_headers := None; eo_body := None |} in
  files (fst (IndexTs.attempt env parameters eo initial)) !! "dist/other.zip"
  = None.
Proof.
  intros env parameters eo.
  destruct (attempt_frame env parameters eo initial)
    as [(_ & _ & H & _) _].
  rewrite (H "dist/other.zip"); [reflexivity|].
  vm_compute. discriminate.
Defined.

(** X7.  Two attempts in a row at the same output path, both answered with
    a success: the file holds the body of the second answer, and when the
    two bodies are equal the second attempt leaves files and directories
    exactly as the first one left them. *)
Theorem attempt_twice (env : Env) (parameters : gmap string JSValue)
    (eo : EndpointOptions) (w : World) (outputPath : string)
    (first second : Response) :
  prop parameters "outputPath" = JSString outputPath ->
  ok first = true -> ok second = true ->
  (network env (exchanges w) (IndexTs.request parameters eo)
   = Responded first ->
   network env (S (exchanges w)) (IndexTs.request parameters eo)
   = Responded second ->
   let w1 := fst (IndexTs.attempt env parameters eo w) in
   let w2 := fst (IndexTs.attempt env parameters eo w1) in
   files w2 = <[outputPath := payload second]> (files w)
   /\ directories w2 = directories w1
   /\ (payload first = payload second -> files w2 = files w1))
  /\ (network env (exchanges w) (Part000.request parameters eo)
      = Responded first ->
      network env (S (exchanges w)) (Part000.request parameters eo)
      = Responded second ->
      let w1 := fst (Part000.attempt env parameters eo w) in
      let w2 := fst (Part000.attempt env parameters eo w1) in
      files w2 = <[outputPath := payload second]> (files w)
      /\ directories w2 = directories w1
      /\ (payload first = payload second -> files w2 = files w1)).
Proof.
  intros Hpath Hok1 Hok2. split; intros Hnet1 Hnet2.
  - unfold IndexTs.attempt, IndexTs.baseFetchFile,
      IndexTs.baseFetchFile_resume. js.
    fold (IndexTs.request parameters eo). rewrite Hnet1. js.
    rewrite Hok1. js. rewrite Hpath. js.
    rewrite Hnet2. js. rewrite Hok2. js.
    split; [apply insert_insert_eq|].
    split; [rewrite <- union_assoc_L, union_idemp_L; reflexivity|].
    intros ->. apply insert_insert_eq.
  - unfold Part000.attempt, Part000.baseFetchFile,
      Part000.baseFetchFile_resume. js.
    fold (Part000.request parameters eo). rewrite Hnet1. js.
    rewrite Hok1. js. rewrite Hpath. js.
    rewrite Hnet2. js. rewrite Hok2. js.
    split; [apply insert_insert_eq|].
    split; [rewrite <- union_assoc_L, union_idemp_L; reflexivity|].
    intros ->. apply insert_insert_eq.
Qed.

(** [attempt_twice] on a server that answers 200 with the same body. *)
Lemma attempt_twice_witness :
  let env := Demo.env [] (Demo.answers 200 "data") in
  let parameters : gmap string JSValue :=
    list_to_map [("outputPath", JSString "dist/app.zip");
                 ("token", JSString "t")] in
  let eo :=
    {| eo_method := "GET"; eo_url := "https://example.org/app.zip";
       eo_headers := None; eo_body := None |} in
  let w1 := fst (Part000.attempt env parameters eo initial) in
  files (fst (Part000.attempt env parameters eo w1)) = files w1.
Proof.
  intros env parameters eo w1.
  destruct (attempt_twice env parameters eo initial "dist/app.zip"
              {| status := 200; payload := list_byte_of_string "data" |}
              {| status := 200; payload := list_byte_of_string "data" |}
              eq_refl eq_refl eq_refl) as [_ H].
  destruct (H eq_refl eq_refl) as (_ & _ & Hsame).
  apply Hsame. reflexivity.
Defined.

(** ** The requests the fetchers send *)

Lemma fetched_launched (logged : list Event)
    (parameters : gmap string JSValue) (request : Request) (w : World) :
  (forall e, In e logged -> fetched [e] = []) ->
  fetched (events (launched logged parameters request w))
  = fetched (events w) ++ [(exchanges w, request)].
Proof.
  intros H. unfold launched. cbn [events]. rewrite !fetched_app.
  replace (fetched logged) with (@nil (nat * Request)); [reflexivity|].
  induction logged as [|e l IH]; [reflexivity|].
  change (e :: l) with ([e] ++ l). rewrite fetched_app, H by (left; reflexivity).
  apply IH. intros e' He'. apply H. right. exact He'.
Qed.

Lemma index_ts_logged_no_fetch (eo : EndpointOptions) (e : Event) :
  In e (IndexTs.logged eo) -> fetched [e] = [].
Proof. intros [<-|[]]. reflexivity. Qed.

(** X8.  The headers of the request each fetcher sends.  Every request
    carries authorization: token followed by the token of the parameters,
    over whatever authorization header the endpoint gave.  In src/index.ts
    accept is application/octet-stream for an asset and for the archive
    alike; in src/unnamed/part_000 it is application/octet-stream for an
    asset and application/vnd.github.v3+json for the archive.  The other
    headers are those of the endpoint, unchanged; the archive request has
    no other header. *)
Theorem fetcher_headers (env : Env) (octokit : Octokit)
    (parameters : gmap string JSValue) (url outputPath token : string)
    (w : World) :
  let sends (w' : World) (req : Request) :=
    fetched (events w') = fetched (events w) ++ [(exchanges w, req)] in
  let authorized (value : JSValue) (req : Request) :=
    req_headers req !! "authorization" = Some ("token " +:+ ToString value) in
  let others (given : gmap string string) (req : Request) :=
    forall k : string,
      k <> "authorization" -> k <> "accept" ->
      req_headers req !! k = given !! k in
  (exists req,
      sends (fst (IndexTs.fetchAssetFile env octokit parameters w)) req
      /\ authorized (prop parameters "token") req
      /\ req_headers req !! "accept" = Some "application/octet-stream"
      /\ others
           (default ∅ (eo_headers (endpoint env octokit asset_route parameters)))
           req)
  /\ (exists req,
         sends (fst (IndexTs.fetchSourceFile env parameters url w)) req
         /\ authorized (prop parameters "token") req
         /\ req_headers req !! "accept" = Some "application/octet-stream"
         /\ others ∅ req)
  /\ (exists req,
         sends (fst (Part000.fetchAssetFile env octokit parameters w)) req
         /\ authorized (prop parameters "token") req
         /\ req_headers req !! "accept" = Some "application/octet-stream"
         /\ others
              (default ∅
                 (eo_headers
                    (endpoint env octokit asset_route
                       (list_to_map
                          [("owner", prop parameters "owner");
                           ("repo", prop parameters "repo");
                           ("asset_id", prop parameters "id")]))))
              req)
  /\ (exists req,
         sends (fst (Part000.fetchSourceFile env url outputPath token w)) req
         /\ authorized (JSString token) req
         /\ req_headers req !! "accept"
            = Some "application/vnd.github.v3+json"
         /\ others ∅ req).
Proof.
  cbv zeta.
  rewrite index_ts_fetchAssetFile, index_ts_fetchSourceFile,
    part_000_fetchAssetFile, part_000_fetchSourceFile.
  cbn [fst].
  rewrite !fetched_launched
    by (try apply index_ts_logged_no_fetch; intros e []).
  split; [|split; [|split]]; eexists; (split; [reflexivity|]).
  - unfold IndexTs.request, IndexTs.asset_endpoint, asset_route.
    cbn [req_headers]. split; [apply lookup_insert_eq|].
    split; [rewrite lookup_insert_ne by discriminate; apply lookup_insert_eq|].
    intros k Hk1 Hk2. rewrite !lookup_insert_ne by congruence. reflexivity.
  - unfold IndexTs.request, IndexTs.source_endpoint.
    cbn [req_headers eo_headers default from_option id].
    split; [apply lookup_insert_eq|].
    split; [rewrite lookup_insert_ne by discriminate; apply lookup_insert_eq|].
    intros k Hk1 Hk2. rewrite !lookup_insert_ne by congruence. reflexivity.
  - unfold Part000.request, Part000.asset_endpoint, asset_route.
    cbn [req_headers eo_headers default from_option id].
    split; [apply lookup_insert_eq|].
    split; [rewrite lookup_insert_ne by discriminate; apply lookup_insert_eq|].
    intros k Hk1 Hk2. rewrite !lookup_insert_ne by congruence. reflexivity.
  - unfold Part000.request, Part000.source_endpoint, Part000.source_parameters.
    cbn [req_headers eo_headers default from_option id].
    split; [rewrite lookup_insert_eq; reflexivity|].
    split.
    + rewrite lookup_insert_ne by discriminate. apply lookup_singleton_eq.
    + intros k Hk1 Hk2. rewrite lookup_insert_ne by congruence.
      rewrite lookup_singleton_ne by congruence. apply eq_sym, lookup_empty.
Qed.

(** [fetcher_headers] on the archive request of src/unnamed/part_000. *)
Lemma fetcher_headers_witness :
  let env := Demo.env [] (Demo.answers 200 "zip") in
  exists req,
    fetched
      (events
         (fst (Part000.fetchSourceFile env "https://example.org/z" "out.zip"
                 "secret" initial)))
    = [(0%nat, req)]
    /\ req_headers req !! "authorization" = Some "token secret"
    /\ req_headers req !! "user-agent" = None.
Proof.
  intros env.
  destruct (fetcher_headers env Demo.octokit ∅ "https://example.org/z"
              "out.zip" "secret" initial)
    as (_ & _ & _ & req & Hsends & Hauth & _ & Hothers).
  exists req. split; [exact Hsends|]. split; [exact Hauth|].
  rewrite Hothers by discriminate. reflexivity.
Defined.

(** X9.  What the route of an asset download is expanded with.  In
    src/unnamed/part_000 the endpoint gets owner, repo and asset_id only,
    so url, method and body of the request do not depend on the token or
    on the output path.  In src/index.ts the endpoint gets the whole
    parameter object of main: it holds the id of the asset under the key
    id, holds no asset_id, and holds the token and the output path. *)
Theorem asset_route_parameters (env : Env) (octokit : Octokit)
    (parameters parameters' : gmap string JSValue) (usesRegex : bool)
    (target o r token : string) (asset : Asset) (w w' : World) :
  (prop parameters "owner" = prop parameters' "owner" ->
   prop parameters "repo" = prop parameters' "repo" ->
   prop parameters "id" = prop parameters' "id" ->
   exists req req',
     fetched (events (fst (Part000.fetchAssetFile env octokit parameters w)))
     = fetched (events w) ++ [(exchanges w, req)]
     /\ fetched
          (events (fst (Part000.fetchAssetFile env octokit parameters' w')))
        = fetched (events w') ++ [(exchanges w', req')]
     /\ req_url req = req_url req' /\ req_method req = req_method req'
     /\ req_body req = req_body req')
  /\ (let given := IndexTs.asset_parameters usesRegex target o r token asset in
      exists req,
        fetched (events (fst (IndexTs.fetchAssetFile env octokit given w)))
        = fetched (events w) ++ [(exchanges w, req)]
        /\ req_url req = eo_url (endpoint env octokit asset_route given)
        /\ given !! "asset_id" = None
        /\ given !! "id" = Some (JSInteger (asset_id asset))
        /\ given !! "token" = Some (JSString token)
        /\ is_Some (given !! "outputPath")).
Proof.
  split.
  - intros Ho Hr Hi.
    rewrite !part_000_fetchAssetFile. cbn [fst].
    rewrite !fetched_launched by (intros e []).
    eexists. eexists. split; [reflexivity|]. split; [reflexivity|].
    unfold Part000.request, Part000.asset_endpoint.
    cbn [req_url req_method req_body eo_url eo_method eo_body].
    rewrite Ho, Hr, Hi. repeat split.
  - cbv zeta. rewrite index_ts_fetchAssetFile. cbn [fst].
    rewrite fetched_launched by apply index_ts_logged_no_fetch.
    eexists. split; [reflexivity|]. repeat split. eexists; reflexivity.
Qed.

(** [asset_route_parameters] on two parameter objects that differ in the
    token and in the output path only. *)
Lemma asset_route_parameters_witness :
  let env := Demo.env [] (Demo.answers 200 "data") in
  let p1 : gmap string JSValue :=
    list_to_map [("id", JSInteger 11); ("outputPath", JSString "a");
                 ("owner", JSString "octo"); ("repo", JSString "cat");
                 ("token", JSString "t1")] in
  let p2 : gmap string JSValue :=
    list_to_map [("id", JSInteger 11); ("outputPath", JSString "b");
                 ("owner", JSString "octo"); ("repo", JSString "cat");
                 ("token", JSString "t2")] in
  exists req req',
    fetched (events (fst (Part000.fetchAssetFile env Demo.octokit p1 initial)))
    = [(0%nat, req)]
    /\ fetched
         (events (fst (Part000.fetchAssetFile env Demo.octokit p2 initial)))
       = [(0%nat, req')]
    /\ req_url req = req_url req'.
Proof.
  intros env p1 p2.
  destruct (asset_route_parameters env Demo.octokit p1 p2 false "t" "o" "r"
              "k" {| asset_id := 11; asset_name := "n" |} initial initial)
    as [H _].
  destruct (H eq_refl eq_refl eq_refl)
    as (req & req' & H1 & H2 & Hurl & _).
  exists req, req'. split; [exact H1|]. split; [exact H2|]. exact Hurl.
Defined.

(** ** main on every environment *)

Section ResolvedFilter.

Variables (env : Env) (o r : string) (usesRegex : bool).
Variables (octokit : Octokit) (release : Release) (e : JSError).

Hypothesis Hrepo :
  getRepo (input env "repo") (context env) = Normal {| owner := o; repo := r |}.
Hypothesis Hfile : inputs env "file" <> "".
Hypothesis Hregex : core_getBooleanInput env "regex" false = Normal usesRegex.
Hypothesis Hzip :
  core_getBooleanInput env "only-source-zip" false = Normal false.
Hypothesis Hoctokit :
  getOctokit env (input env "token") (baseUrl_of env) = Normal octokit.
Hypothesis Hrelease :
  rest env octokit (getRelease o r (version_of env)) = Normal release.
Hypothesis Hfilter :
  Array_filter (assetFilterFn env usesRegex (input env "file"))
    (assets release) = Throw e.

Lemma index_ts_main_filter_throws (w : World) :
  IndexTs.main env w
  = (after_events [Warning "Value onlySourceZip false"] w, Throw e).
Proof.
  unfold IndexTs.main. unfold version_of, baseUrl_of in *.
  rewrite !getInput_optional, (getInput_required env "file" Hfile).
  js. rewrite Hrepo. js. rewrite Hregex. js. rewrite Hzip. js.
  rewrite Hoctokit. js. rewrite Hrelease. js.
  fold (assetFilterFn env usesRegex (input env "file")).
  rewrite Hfilter. reflexivity.
Qed.

Lemma part_000_main_filter_throws (w : World) :
  Part000.main env w = (w, Throw e).
Proof.
  unfold Part000.main. unfold version_of, baseUrl_of in *.
  rewrite !getInput_optional, (getInput_required env "file" Hfile).
  js. rewrite Hrepo. js. rewrite Hregex. js. rewrite Hzip. js.
  rewrite Hoctokit. js. rewrite Hrelease. js.
  fold (assetFilterFn env usesRegex (input env "file")).
  rewrite Hfilter. reflexivity.
Qed.

End ResolvedFilter.





(** ** Patterns that do not compile *)

(** X11.  In pattern mode the pattern is compiled when the first asset is
    tested, not before.  With a pattern the compiler rejects, main throws
    the error of the compiler, having started no exchange, when the
    release has at least one asset; on a release without asset the pattern
    is never compiled and main throws Could not find asset id. *)
Theorem invalid_pattern (env : Env) (o r : string) (octokit : Octokit)
    (release : Release) (e : JSError) :
  getRepo (input env "repo") (context env)
  = Normal {| owner := o; repo := r |} ->
  inputs env "file" <> "" ->
  core_getBooleanInput env "regex" false = Normal true ->
  core_getBooleanInput env "only-source-zip" false = Normal false ->
  getOctokit env (input env "token") (baseUrl_of env) = Normal octokit ->
  rest env octokit (getRelease o r (version_of env)) = Normal release ->
  RegExp_new env (input env "file") = Throw e ->
  (assets release <> [] ->
   snd (IndexTs.main env initial) = Throw e
   /\ exchanges (fst (IndexTs.main env initial)) = 0%nat
   /\ snd (Part000.main env initial) = Throw e
   /\ exchanges (fst (Part000.main env initial)) = 0%nat)
  /\ (assets release = [] ->
      snd (IndexTs.main env initial)
      = Throw (Error "Could not find asset id")
      /\ snd (Part000.main env initial)
         = Throw (Error "Could not find asset id")).
Proof.
  intros Hrepo Hfile Hregex Hzip Hoctokit Hrelease Hcompile. split.
  - intros Hne. destruct (assets release) as [|a l] eqn:Ha; [contradiction|].
    assert (Hfilter :
              Array_filter (assetFilterFn env true (input env "file"))
                (assets release) = Throw e).
    { rewrite Ha.
      apply (Array_filter_by_invalid_regex env _ e a l Hcompile). }
    rewrite (index_ts_main_filter_throws env o r true octokit release e
               Hrepo Hfile Hregex Hzip Hoctokit Hrelease Hfilter).
    rewrite (part_000_main_filter_throws env o r true octokit release e
               Hrepo Hfile Hregex Hzip Hoctokit Hrelease Hfilter).
    repeat split.
  - intros Ha.
    assert (Hfilter :
              Array_filter (assetFilterFn env true (input env "file"))
                (assets release) = Normal []).
    { rewrite Ha. reflexivity. }
    rewrite (index_ts_main_assets env o r true false octokit release
               Hrepo Hfile Hregex Hzip Hoctokit Hrelease [] initial
               eq_refl Hfilter).
    rewrite (part_000_main_assets env o r true false octokit release
               Hrepo Hfile Hregex Hzip Hoctokit Hrelease [] initial
               eq_refl Hfilter).
    split; reflexivity.
Qed.

(** [invalid_pattern] on the example release and on a release without
    asset, with the unbalanced pattern ( . *)
Lemma invalid_pattern_witness :
  let inputs :=
    [("file", "("); ("regex", "true"); ("only-source-zip", "false");
     ("token", "t")] in
  let env := Demo.env inputs (Demo.answers 200 "data") in
  snd (IndexTs.main env initial)
  = Throw (SyntaxError "Invalid regular expression: /(/")
  /\ snd (Part000.main (with_assets env [] Engine.RegExp_new) initial)
     = Throw (Error "Could not find asset id").
Proof.
  intros inputs env. split.
  - refine (proj1 (proj1 (invalid_pattern env "octo" "cat" Demo.octokit
                            Demo.release _ _ _ _ _ _ _ _) _));
      try reflexivity; discriminate.
  - refine (proj2 (proj2 (invalid_pattern
                            (with_assets env [] Engine.RegExp_new)
                            "octo" "cat" Demo.octokit
                            {| tag_name := "v2.0.0";
                               release_name := Some "Two";
                               release_body := Some "notes";
                               zipball_url := zipball_url Demo.release;
                               assets := [] |}
                            (SyntaxError "Invalid regular expression: /(/")
                            _ _ _ _ _ _ _) _));
      try reflexivity; discriminate.
Defined.

(** ** A whole run in asset mode *)









(** ** The default of the input [version] *)

(** X13.  A run whose input version is empty or made of white space only
    is, in both source files and from every world, the run whose input
    version is the word latest: main replaces the blank value by that word
    before it resolves the release, and reads the input nowhere else. *)
Theorem blank_version_is_latest (env : Env) (value : string) (w : World) :
  trim value = "" ->
  IndexTs.main (with_version env value) w
  = IndexTs.main (with_version env "latest") w
  /\ Part000.main (with_version env value) w
     = Part000.main (with_version env "latest") w.
Proof.
  intros H.
  unfold IndexTs.main, Part000.main, core_getBooleanInput, core_getInput,
    with_version.
  cbn [inputs context getOctokit rest endpoint network RegExp_new
       String.eqb Ascii.eqb Bool.eqb andb].
  rewrite H.
  change (trim "latest") with "latest".
  change (or_else "" "latest") with "latest".
  change (or_else "latest" "latest") with "latest".
  split; reflexivity.
Qed.

Lemma blank_version_is_latest_witness :
  let env := Demo.env Demo.name_inputs (Demo.answers 200 "data") in
  IndexTs.main (with_version env "  ") initial
  = IndexTs.main (with_version env "latest") initial.
Proof.
  intros env.
  refine (proj1 (blank_version_is_latest env "  " initial _)).
  reflexivity.
Defined.

(** ** The required input [file] *)

(** X14.  Without the input file, main fails in both source files before
    it touches anything: the world is left as it was (no warning, no
    exchange, no output), and the error is the one of the repository
    input when that is malformed, which is read first, and otherwise the
    error of the missing required input. *)
Theorem missing_file_stops_main (env : Env) (w : World) :
  inputs env "file" = "" ->
  let e :=
    match getRepo (input env "repo") (context env) with
    | Throw e => e
    | Normal _ => Error "Input required and not supplied: file"
    end in
  IndexTs.main env w = (w, Throw e) /\ Part000.main env w = (w, Throw e).
Proof.
  intros H e. subst e.
  unfold IndexTs.main, Part000.main, core_getInput, input.
  rewrite H. cbn [String.eqb andb].
  split; js;
    destruct (getRepo (trim (inputs env "repo")) (context env))
      as [[o r]|e]; js; reflexivity.
Qed.

Lemma missing_file_stops_main_witness :
  let env := Demo.env [("repo", "octo/cat"); ("token", "t")]
               (Demo.answers 200 "data") in
  Part000.main env initial
  = (initial, Throw (Error "Input required and not supplied: file")).
Proof.
  intros env.
  refine (proj2 (missing_file_stops_main env initial _)).
  reflexivity.
Defined.
